(** * AzureFunctionsService (src/azureFunctions/azureFunctionsService.ts)

    A shallow embedding of the service class of the SQL-bindings feature:
    [getAzureFunctions], [insertSqlInputBinding], [getFunctionsProject],
    [isFunctionProject], [fileExist] and [getFileStatus].

    The class talks to collaborators that are not part of the repository:
    the editor API ([vscode]), Node's [path] and [fs], the [fast-glob]
    package and the language-service client.  They are gathered in one
    record, [Host], that every operation receives; what the service asks of
    them is recorded, in order, in a trace of [Event]s.

    Every method of the class is an [async] function.  Calling one yields a
    promise and never throws; [await] is what turns a rejected promise into
    an exception of the caller.  The embedding keeps the two apart, because
    the source does: some calls are awaited and some are not.  A promise is
    represented by what it settles to.

    Two calls of the class are not awaited.  [isFunctionProject], in the
    loop of [getFunctionsProject], asks its one question (the stat) before
    its first [await], that is at the call, and the trace has it there.
    [getFunctionsProject], in [insertSqlInputBinding], suspends at its
    [await glob(...)] and goes on while the caller shows its prompts: the
    source fixes no order between what the lookup asks and what the caller
    does next.  The trace of the caller therefore holds one [EvDetached]
    event at the call, with what the lookup asks inside, and the order of
    a run is read on [flow_events], the trace without the questions to the
    file system.

    The [console.error] diagnostics of the source write to the debug console
    only; they are left out of the trace. *)

From Stdlib Require Import String Ascii List Bool Arith Lia.
Import ListNotations.
Open Scope string_scope.

(** ** JavaScript values the service handles *)

(** What a [throw] or a rejected promise carries. *)
Inductive Exn : Type :=
| SystemError (code : string)      (* a Node fs error; [e.code] is [code] *)
| TypeError (msg : string)         (* property access on [undefined] *)
| Error (msg : string)             (* [new Error(msg)] *)
| HostFailure (msg : string).      (* a rejection raised by a collaborator *)

(** [e.code]: only Node's system errors have the property. *)
Definition exn_code (e : Exn) : option string :=
  match e with
  | SystemError c => Some c
  | _ => None
  end.

(** [v === s] for a value that is a string or [undefined]. *)
Definition strict_eq (v : option string) (s : string) : bool :=
  match v with
  | Some x => String.eqb x s
  | None => false
  end.

Inductive Completion (A : Type) : Type :=
| Normal (a : A)
| Throw (e : Exn).
Arguments Normal {A} a.
Arguments Throw {A} e.

(** A settled promise. *)
Inductive Promise (A : Type) : Type :=
| Fulfilled (a : A)
| Rejected (e : Exn).
Arguments Fulfilled {A} a.
Arguments Rejected {A} e.

(** [ToBoolean] of a promise: a promise is an object, and every object is
    truthy, whatever it settles to. *)
Definition ToBoolean_promise {A : Type} (p : Promise A) : bool := true.

(** [ToBoolean] of a string-or-undefined: [undefined] and [''] are falsy. *)
Definition ToBoolean_string (v : option string) : bool :=
  match v with
  | None => false
  | Some s => negb (String.eqb s "")
  end.

(** ** Data of the editor API and of the request contracts *)

Record Uri : Type := { fsPath : string }.

(** [vscode.Uri.file(p)]. *)
Definition Uri_file (p : string) : Uri := {| fsPath := p |}.

Record WorkspaceFolder : Type := { uri : Uri }.
Record TextDocument : Type := { document_uri : Uri }.
Record TextEditor : Type := { document : TextDocument }.

Record QuickPickItem : Type := { label : string }.
Record QuickPickOptions : Type := { canPickMany : bool; title : string }.
Record InputBoxOptions : Type :=
  { prompt : string; value : option string; ignoreFocusOut : bool }.

(** [fs.Stats], as far as the service reads it. *)
Record Stats : Type := { isFile : bool }.

(** Modelled from the spec: the enum [BindingType] of
    models/contracts/azureFunctions/azureFunctionsRequest, which is not
    among the sources; the spec knows a binding direction, input or
    output. *)
Inductive BindingType : Type := input | output.

(** Modelled from the spec: [GetAzureFunctionsParams] and its result, "a
    success flag plus either a list of function names or an error
    message". *)
Record GetAzureFunctionsParams : Type := { gaf_filePath : string }.
Record GetAzureFunctionsResult : Type :=
  { gaf_success : bool;
    gaf_errorMessage : string;
    azureFunctions : list string }.

(** Modelled from the spec: [InsertSqlBindingParams] and its result, "a
    success flag plus an optional error message". *)
Record InsertSqlBindingParams : Type :=
  { filePath : string;
    functionName : string;
    objectName : string;
    bindingType : BindingType;
    connectionStringSetting : string }.
Record ResultStatus : Type :=
  { success : bool; errorMessage : string }.

(** ** The collaborators *)

Record Host : Type :=
  { (* vscode *)
    workspace_getWorkspaceFolder : Uri -> option WorkspaceFolder;
    window_activeTextEditor : option TextEditor;
    window_showQuickPick :
      list QuickPickItem -> QuickPickOptions -> option QuickPickItem;
    window_showInputBox : InputBoxOptions -> option string;
    (* path *)
    path_join : list string -> string;
    path_posix_join : list string -> string;
    path_dirname : string -> string;
    path_resolve : string -> string;
    (* fast-glob *)
    glob_escapePath : string -> string;
    glob_run : string -> Completion (list string);
    (* fs *)
    fs_stat : string -> Completion Stats;
    (* SqlToolsServiceClient.sendRequest, one field per request type *)
    send_GetAzureFunctionsRequest :
      GetAzureFunctionsParams -> Completion GetAzureFunctionsResult;
    send_InsertSqlBindingRequest :
      InsertSqlBindingParams -> Completion ResultStatus }.

(** What the service asks of its collaborators, in program order.
    [EvDetached asked] stands for a call that nobody waits for: [asked] is
    what that call asks, in its own order, at some time from here on,
    between the events that follow or after them. *)
#[warnings="-register-all"]
Inductive Event : Type :=
| EvGlob (pattern : string)
| EvStat (path : string)
| EvShowQuickPick (items : list QuickPickItem) (options : QuickPickOptions)
| EvShowInputBox (options : InputBoxOptions)
| EvShowErrorMessage (message : string)
| EvGetAzureFunctions (params : GetAzureFunctionsParams)
| EvInsertSqlBinding (params : InsertSqlBindingParams)
| EvDetached (asked : list Event).

Definition Trace : Type := list Event.

(** ** The monad of an async function body: a trace and exceptions *)

Definition M (A : Type) : Type := Trace -> Completion A * Trace.

Definition ret {A : Type} (a : A) : M A := fun t => (Normal a, t).

Definition throw {A : Type} (e : Exn) : M A := fun t => (Throw e, t).

Definition bind {A B : Type} (m : M A) (k : A -> M B) : M B :=
  fun t =>
    match m t with
    | (Normal a, t') => k a t'
    | (Throw e, t') => (Throw e, t')
    end.

Declare Scope js_scope.
Delimit Scope js_scope with js.
Notation "x <- m ;; k" := (bind m (fun x => k))
  (at level 61, m at next level, right associativity) : js_scope.
Notation "m ;;; k" := (bind m (fun _ => k))
  (at level 61, right associativity) : js_scope.
Open Scope js_scope.

(** [try { m } catch (e) { handler e }]. *)
Definition try_catch {A : Type} (m : M A) (handler : Exn -> M A) : M A :=
  fun t =>
    match m t with
    | (Normal a, t') => (Normal a, t')
    | (Throw e, t') => handler e t'
    end.

Definition emit (e : Event) : M unit := fun t => (Normal tt, (t ++ [e])%list).

(** Lifting the answer of a collaborator. *)
Definition of_completion {A : Type} (c : Completion A) : M A :=
  fun t => (c, t).

(** The call of an [async] function: the body runs, whatever it throws
    rejects the promise, and the call itself completes normally. *)
Definition async {A : Type} (body : M A) : M (Promise A) :=
  fun t =>
    match body t with
    | (Normal a, t') => (Normal (Fulfilled a), t')
    | (Throw e, t') => (Normal (Rejected e), t')
    end.

(** [await p]. *)
Definition await {A : Type} (p : Promise A) : M A :=
  match p with
  | Fulfilled a => ret a
  | Rejected e => throw e
  end.

(** [await f(...)]: call, then await the promise the call returned. *)
Definition awaiting {A : Type} (call : M (Promise A)) : M A :=
  p <- call ;; await p.

(** [f(...)] without [await], for an [async] function that suspends
    before it is done and whose promise nobody awaits: the caller goes on
    at once, and what the callee asks is detached from the caller's own
    sequence. *)
Definition unawaited {A : Type} (call : M (Promise A)) : M (Promise A) :=
  fun t =>
    match call [] with
    | (c, asked) => (c, (t ++ [EvDetached asked])%list)
    end.

(** [if (!v) { return; }] and then the rest of the body, in which [v] is a
    string that is not empty. *)
Definition unless_falsy (v : option string) (rest : string -> M unit) : M unit :=
  match v with
  | Some s => if ToBoolean_string (Some s) then rest s else ret tt
  | None => ret tt
  end.

(** [o.field] where [o] may be [undefined]. *)
Definition deref {A : Type} (o : option A) (field : string) : M A :=
  match o with
  | Some a => ret a
  | None =>
      throw (TypeError
               ("Cannot read properties of undefined (reading '" ++ field ++ "')"))
  end.

(** [s.replace(/\\/g, '/')]: every backslash becomes a forward slash. *)
Fixpoint replace_backslash_g (s : string) : string :=
  match s with
  | EmptyString => EmptyString
  | String c r =>
      String (if Ascii.eqb c "\" then "/"%char else c) (replace_backslash_g r)
  end.

Definition hostFileName : string := "host.json".

(** [e.code === 'ENOENT']. *)
Definition is_not_found (e : Exn) : bool := strict_eq (exn_code e) "ENOENT".

(** ** The service *)

Section AzureFunctionsService.

Variable h : Host.

(** [fs.promises.stat(filePath)]. *)
Definition fs_promises_stat (filePath : string) : M (Promise Stats) :=
  async (emit (EvStat filePath) ;;; of_completion (fs_stat h filePath)).

(** [glob(pattern)]. *)
Definition glob (pattern : string) : M (Promise (list string)) :=
  async (emit (EvGlob pattern) ;;; of_completion (glob_run h pattern)).

Definition getFileStatus (filePath : string) : M (Promise (option Stats)) :=
  async
    (try_catch
       (stats <- awaiting (fs_promises_stat filePath) ;;
        ret (Some stats))
       (fun e =>
          if is_not_found e then ret None else throw e)).

Definition fileExist (filePath : string) : M (Promise bool) :=
  async
    (stats <- awaiting (getFileStatus filePath) ;;
     ret (match stats with
          | Some s => isFile s
          | None => false
          end)).

Definition isFunctionProject (folderPath : string) : M (Promise bool) :=
  async (awaiting (fileExist (path_join h [folderPath; hostFileName]))).

(** The [for (const p of projectFiles)] loop of [getFunctionsProject];
    [Some p] is its [return p], [None] is falling out of the loop.  The
    condition of its [if] is the promise that [isFunctionProject]
    returns: the call is not awaited, and it is given [p.fsPath].  The
    stat of that call is started before the call returns. *)
Fixpoint getFunctionsProject_loop (projectFiles : list Uri) : M (option Uri) :=
  match projectFiles with
  | [] => ret None
  | p :: rest =>
      cond <- isFunctionProject (fsPath p) ;;
      if ToBoolean_promise cond then ret (Some p)
      else getFunctionsProject_loop rest
  end.

Definition getFunctionsProject (file : Uri) : M (Promise (option Uri)) :=
  async
    (let folder := workspace_getWorkspaceFolder h file in
     folder_uri <- (f <- deref folder "uri" ;; ret (uri f)) ;;
     let escapedPath :=
       glob_escapePath h (replace_backslash_g (fsPath folder_uri)) in
     let projFilter := path_posix_join h [escapedPath; "**"; "*.csproj"] in
     found <- awaiting (glob projFilter) ;;
     let projectFiles := map (fun p => Uri_file (path_resolve h p)) found in
     if (1 <? length projectFiles)%nat then
       r <- getFunctionsProject_loop projectFiles ;;
       match r with
       | Some p => ret (Some p)
       | None => ret None
       end
     else if (length projectFiles =? 0)%nat then
       ret None
     else
       first <- deref (nth_error projectFiles 0) "fsPath" ;;
       isFuncProject <-
         awaiting (isFunctionProject (path_dirname h (fsPath first))) ;;
       ret (nth_error projectFiles 0)).

(** [vscode.window.showQuickPick(items, options)]. *)
Definition showQuickPick (items : list QuickPickItem)
    (options : QuickPickOptions) : M (Promise (option QuickPickItem)) :=
  async (emit (EvShowQuickPick items options) ;;;
         ret (window_showQuickPick h items options)).

(** [vscode.window.showInputBox(options)]. *)
Definition showInputBox (options : InputBoxOptions)
    : M (Promise (option string)) :=
  async (emit (EvShowInputBox options) ;;;
         ret (window_showInputBox h options)).

(** [vscode.window.showErrorMessage(message)]; the thenable it returns is
    dropped by every caller. *)
Definition showErrorMessage (message : string) : M unit :=
  emit (EvShowErrorMessage message).

Definition sendRequest_GetAzureFunctions (params : GetAzureFunctionsParams)
    : M (Promise GetAzureFunctionsResult) :=
  async (emit (EvGetAzureFunctions params) ;;;
         of_completion (send_GetAzureFunctionsRequest h params)).

Definition sendRequest_InsertSqlBinding (params : InsertSqlBindingParams)
    : M (Promise ResultStatus) :=
  async (emit (EvInsertSqlBinding params) ;;;
         of_completion (send_InsertSqlBindingRequest h params)).

Definition getAzureFunctions (file : option Uri) : M (Promise (list string)) :=
  async
    (match file with
     | None => ret []
     | Some u =>
         let params := {| gaf_filePath := fsPath u |} in
         result <- awaiting (sendRequest_GetAzureFunctions params) ;;
         if gaf_success result then ret (azureFunctions result)
         else throw (Error (gaf_errorMessage result))
     end).

Definition intputOutputItems : list QuickPickItem :=
  [ {| label := "input" |}; {| label := "output" |} ].

Definition insertSqlInputBinding (file : option Uri) : M (Promise unit) :=
  async
    (file_uri <-
       match file with
       | Some u => ret u
       | None =>
           editor <- deref (window_activeTextEditor h) "document" ;;
           ret (document_uri (document editor))
       end ;;
     functionsProject <- unawaited (getFunctionsProject file_uri) ;;
     picked <-
       awaiting (showQuickPick intputOutputItems
                   {| canPickMany := false; title := "Type of binding:" |}) ;;
     let selectedBinding := option_map label picked in
     azureFunctions <- awaiting (getAzureFunctions (Some file_uri)) ;;
     if (length azureFunctions =? 0)%nat then
       showErrorMessage "No Azure functions in the current file"
     else
       let items := map (fun aFName => {| label := aFName |}) azureFunctions in
       pickedFunction <-
         awaiting (showQuickPick items
                     {| canPickMany := false;
                        title :=
                          "Azure function in current file to add sql binding to:" |}) ;;
       let azureFunctionName := option_map label pickedFunction in
       unless_falsy azureFunctionName (fun azureFunctionName =>
         objectName <-
           awaiting (showInputBox
                       {| prompt :=
                            if strict_eq selectedBinding "input"
                            then "Object to put in binding:"
                            else "Table to put in binding";
                          value := Some "[dbo].[placeholder]";
                          ignoreFocusOut := true |}) ;;
         unless_falsy objectName (fun objectName =>
           connectionStringSetting <-
             awaiting (showInputBox
                         {| prompt := "Connection string setting name";
                            value := None;
                            ignoreFocusOut := true |}) ;;
           unless_falsy connectionStringSetting (fun connectionStringSetting =>
             let params :=
               {| filePath := fsPath file_uri;
                  functionName := azureFunctionName;
                  objectName := objectName;
                  bindingType :=
                    if strict_eq selectedBinding "input" then input else output;
                  connectionStringSetting := connectionStringSetting |} in
             result <- awaiting (sendRequest_InsertSqlBinding params) ;;
             if negb (success result) then
               showErrorMessage (errorMessage result)
             else ret tt)))).

End AzureFunctionsService.

(** The glob pattern that [getFunctionsProject] builds for a workspace
    folder (its [projFilter]). *)
Definition projFilter (h : Host) (folder : WorkspaceFolder) : string :=
  path_posix_join h
    [glob_escapePath h (replace_backslash_g (fsPath (uri folder)));
     "**"; "*.csproj"].

(** The events of the project lookup: questions to the file system. *)
Definition fs_event (e : Event) : Prop :=
  match e with
  | EvGlob _ | EvStat _ => True
  | _ => False
  end.

(** The options of the three prompts of [insertSqlInputBinding] that guard
    the flow, and of the binding-type picker, which does not. *)
Definition bindingPickOptions : QuickPickOptions :=
  {| canPickMany := false; title := "Type of binding:" |}.

Definition functionPickOptions : QuickPickOptions :=
  {| canPickMany := false;
     title := "Azure function in current file to add sql binding to:" |}.

(** [selectedBinding]: the label picked in the binding-type picker, or
    [undefined]. *)
Definition selectedBinding (h : Host) : option string :=
  option_map label (window_showQuickPick h intputOutputItems bindingPickOptions).

Definition objectInputOptions (h : Host) : InputBoxOptions :=
  {| prompt :=
       if strict_eq (selectedBinding h) "input"
       then "Object to put in binding:"
       else "Table to put in binding";
     value := Some "[dbo].[placeholder]";
     ignoreFocusOut := true |}.

Definition settingInputOptions : InputBoxOptions :=
  {| prompt := "Connection string setting name";
     value := None;
     ignoreFocusOut := true |}.

(** The binding direction that [insertSqlInputBinding] puts in its
    request. *)
Definition requestedBindingType (h : Host) : BindingType :=
  if strict_eq (selectedBinding h) "input" then input else output.

(** A prompt that was shown in the trace and came back with nothing: the
    user cancelled it, or (for a text) left it empty. *)
Definition unanswered_pick (h : Host) (t : Trace) (o : QuickPickOptions) : Prop :=
  exists items,
    In (EvShowQuickPick items o) t /\
    ToBoolean_string (option_map label (window_showQuickPick h items o)) = false.

Definition unanswered_input (h : Host) (t : Trace) : Prop :=
  exists o,
    In (EvShowInputBox o) t /\
    ToBoolean_string (window_showInputBox h o) = false.

(** The four prompt values of the insert flow, as the design document
    counts them: binding direction, function name, target object and
    connection-string setting. *)
Definition some_prompt_unanswered (h : Host) (t : Trace) : Prop :=
  unanswered_pick h t bindingPickOptions \/
  unanswered_pick h t functionPickOptions \/
  unanswered_input h t.

(** The three of them that the code guards with a [return]. *)
Definition guarded_prompt_unanswered (h : Host) (t : Trace) : Prop :=
  unanswered_pick h t functionPickOptions \/ unanswered_input h t.

(** The design document's rule for the insert exchange, for one run: no
    insert request when some prompt value is missing. *)
Definition insert_gated_by_every_prompt (h : Host) (file : option Uri) : Prop :=
  forall out t',
    insertSqlInputBinding h file [] = (out, t') ->
    some_prompt_unanswered h t' ->
    forall params, ~ In (EvInsertSqlBinding params) t'.

(** ** A reference reading of the project lookup

    The multi-candidate rule as the design document words it: the first
    candidate, in discovery order, whose containing directory holds
    [host.json] as a regular file.  It is here to be compared with
    [getFunctionsProject]; the service does not call it. *)

Definition marker_is_regular_file (h : Host) (directory : string) : bool :=
  match fs_stat h (path_join h [directory; hostFileName]) with
  | Normal st => isFile st
  | Throw _ => false
  end.

Definition first_marked_candidate (h : Host) (candidates : list Uri)
    : option Uri :=
  find (fun c => marker_is_regular_file h (path_dirname h (fsPath c)))
       candidates.

(** ** Stand-ins for the collaborators, for closed examples

    A POSIX machine described by a script: the workspace folder, what the
    glob finds, what [stat] answers, what the user answers and what the
    language service answers.  The path functions are the POSIX ones on
    paths that are already normal (no [.], [..] or doubled separators). *)

Definition posix_join (parts : list string) : string := String.concat "/" parts.

(** [Some d] when [s] holds the separator, [d] being what precedes the last
    one. *)
Fixpoint before_last (sep : ascii) (s : string) : option string :=
  match s with
  | EmptyString => None
  | String c r =>
      match before_last sep r with
      | Some d => Some (String c d)
      | None => if Ascii.eqb c sep then Some EmptyString else None
      end
  end.

Definition posix_dirname (p : string) : string :=
  match before_last "/" p with
  | Some EmptyString => "/"
  | Some d => d
  | None => "."
  end.

Definition is_glob_symbol (c : ascii) : bool :=
  existsb (Ascii.eqb c)
    ["("; ")"; "*"; "?"; "["; "]"; "{"; "|"; "}"]%char.

(** fast-glob's [escapePath] on a path without backslashes: a backslash
    goes before each glob symbol. *)
Fixpoint escape_glob_symbols (s : string) : string :=
  match s with
  | EmptyString => EmptyString
  | String c r =>
      if is_glob_symbol c then String "\" (String c (escape_glob_symbols r))
      else String c (escape_glob_symbols r)
  end.

Fixpoint assoc_default {A : Type} (d : A) (k : string) (l : list (string * A)) : A :=
  match l with
  | [] => d
  | (k', a) :: r => if String.eqb k k' then a else assoc_default d k r
  end.

Definition ENOENT : Exn := SystemError "ENOENT".
Definition EACCES : Exn := SystemError "EACCES".
Definition ENOTDIR : Exn := SystemError "ENOTDIR".

Definition regular_file : Completion Stats := Normal {| isFile := true |}.
Definition directory_entry : Completion Stats := Normal {| isFile := false |}.

Record Script : Type :=
  { sc_root : option string;
    sc_globbed : Completion (list string);
    sc_files : list (string * Completion Stats);
    sc_editor : option string;
    sc_binding : option string;
    sc_function : option string;
    sc_object : option string;
    sc_setting : option string;
    sc_listing : Completion GetAzureFunctionsResult;
    sc_insert : Completion ResultStatus }.

Definition host_of (s : Script) : Host :=
  {| workspace_getWorkspaceFolder :=
       fun _ => option_map (fun r => {| uri := Uri_file r |}) (sc_root s);
     window_activeTextEditor :=
       option_map
         (fun p => {| document := {| document_uri := Uri_file p |} |})
         (sc_editor s);
     window_showQuickPick :=
       fun _ o =>
         option_map (fun l => {| label := l |})
           (if String.eqb (title o) "Type of binding:"
            then sc_binding s else sc_function s);
     window_showInputBox :=
       fun o =>
         if String.eqb (prompt o) "Connection string setting name"
         then sc_setting s else sc_object s;
     path_join := posix_join;
     path_posix_join := posix_join;
     path_dirname := posix_dirname;
     path_resolve := fun p => p;
     glob_escapePath := escape_glob_symbols;
     glob_run := fun _ => sc_globbed s;
     fs_stat := fun p => assoc_default (Throw ENOENT) p (sc_files s);
     send_GetAzureFunctionsRequest := fun _ => sc_listing s;
     send_InsertSqlBindingRequest := fun _ => sc_insert s |}.

(** The workspace of the design document's end-to-end scenario:
    [/ws/a/Foo.csproj] with no [host.json] beside it and [/ws/b/Bar.csproj]
    beside [/ws/b/host.json].  A [stat] below a regular file answers
    ENOTDIR. *)
Definition two_projects : Script :=
  {| sc_root := Some "/ws";
     sc_globbed := Normal ["/ws/a/Foo.csproj"; "/ws/b/Bar.csproj"];
     sc_files :=
       [ ("/ws/a/Foo.csproj", regular_file);
         ("/ws/b/Bar.csproj", regular_file);
         ("/ws/b/host.json", regular_file);
         ("/ws/a", directory_entry);
         ("/ws/b", directory_entry);
         ("/ws/a/Foo.csproj/host.json", Throw ENOTDIR);
         ("/ws/b/Bar.csproj/host.json", Throw ENOTDIR) ];
     sc_editor := Some "/ws/b/Function1.cs";
     sc_binding := Some "input";
     sc_function := Some "Function1";
     sc_object := Some "[dbo].[Orders]";
     sc_setting := Some "SqlConnectionString";
     sc_listing :=
       Normal {| gaf_success := true;
                 gaf_errorMessage := "";
                 azureFunctions := ["Function1"] |};
     sc_insert := Normal {| success := true; errorMessage := "" |} |}.

(** A directory that may be listed but not searched: the glob sees the
    project file, [stat] on anything inside is refused. *)
Definition locked_project : Script :=
  {| sc_root := Some "/ws";
     sc_globbed := Normal ["/ws/locked/Only.csproj"];
     sc_files := [ ("/ws/locked/host.json", Throw EACCES) ];
     sc_editor := None;
     sc_binding := None;
     sc_function := None;
     sc_object := None;
     sc_setting := None;
     sc_listing := Throw (HostFailure "not connected");
     sc_insert := Throw (HostFailure "not connected") |}.


(** A workspace with one project file, with or without the marker beside
    it. *)
Definition single_project (marker : bool) : Script :=
  {| sc_root := Some "/ws";
     sc_globbed := Normal ["/ws/app/App.csproj"];
     sc_files :=
       ("/ws/app/App.csproj", regular_file) ::
       (if marker then [("/ws/app/host.json", regular_file)] else []);
     sc_editor := Some "/ws/app/Run.cs";
     sc_binding := Some "output";
     sc_function := Some "Run";
     sc_object := Some "[dbo].[Orders]";
     sc_setting := Some "SqlConnectionString";
     sc_listing :=
       Normal {| gaf_success := true;
                 gaf_errorMessage := "";
                 azureFunctions := ["Run"] |};
     sc_insert := Normal {| success := true; errorMessage := "" |} |}.

(** A workspace without any project file. *)
Definition empty_workspace : Script :=
  {| sc_root := Some "/ws";
     sc_globbed := Normal [];
     sc_files := [];
     sc_editor := Some "/ws/notes/Run.cs";
     sc_binding := None;
     sc_function := None;
     sc_object := None;
     sc_setting := None;
     sc_listing :=
       Normal {| gaf_success := true;
                 gaf_errorMessage := "";
                 azureFunctions := [] |};
     sc_insert := Normal {| success := true; errorMessage := "" |} |}.

(** A file that belongs to no workspace folder; the disk still holds
    project files. *)
Definition outside_workspace : Script :=
  {| sc_root := None;
     sc_globbed := Normal ["/home/u/one/One.csproj"; "/srv/two/Two.csproj"];
     sc_files := [ ("/home/u/one/host.json", regular_file) ];
     sc_editor := Some "/tmp/Scratch.cs";
     sc_binding := None;
     sc_function := None;
     sc_object := None;
     sc_setting := None;
     sc_listing :=
       Normal {| gaf_success := true;
                 gaf_errorMessage := "";
                 azureFunctions := [] |};
     sc_insert := Normal {| success := true; errorMessage := "" |} |}.

(** The same machine with Windows paths: [path.join] and [path.dirname]
    work on backslashes, and [path.resolve] turns the forward slashes of a
    glob result into backslashes. *)
Fixpoint slash_to_backslash (s : string) : string :=
  match s with
  | EmptyString => EmptyString
  | String c r =>
      String (if Ascii.eqb c "/" then "\"%char else c) (slash_to_backslash r)
  end.

Definition win32_dirname (p : string) : string :=
  match before_last "\" p with
  | Some d => d
  | None => "."
  end.

Definition windows_host_of (s : Script) : Host :=
  let p := host_of s in
  {| workspace_getWorkspaceFolder := workspace_getWorkspaceFolder p;
     window_activeTextEditor := window_activeTextEditor p;
     window_showQuickPick := window_showQuickPick p;
     window_showInputBox := window_showInputBox p;
     path_join := String.concat "\";
     path_posix_join := posix_join;
     path_dirname := win32_dirname;
     path_resolve := slash_to_backslash;
     glob_escapePath := escape_glob_symbols;
     glob_run := glob_run p;
     fs_stat := fs_stat p;
     send_GetAzureFunctionsRequest := send_GetAzureFunctionsRequest p;
     send_InsertSqlBindingRequest := send_InsertSqlBindingRequest p |}.

(** A Windows workspace whose folder name holds glob symbols. *)
Definition windows_project : Script :=
  {| sc_root := Some "C:\ws[1]\a*b";
     sc_globbed := Normal ["C:/ws[1]/a*b/src/App.csproj"];
     sc_files := [ ("C:\ws[1]\a*b\src\host.json", regular_file) ];
     sc_editor := None;
     sc_binding := None;
     sc_function := None;
     sc_object := None;
     sc_setting := None;
     sc_listing :=
       Normal {| gaf_success := true;
                 gaf_errorMessage := "";
                 azureFunctions := [] |};
     sc_insert := Normal {| success := true; errorMessage := "" |} |}.

(** The user leaves the binding-type picker with Escape and answers the
    three other prompts. *)
Definition cancelled_binding : Script :=
  {| sc_root := Some "/ws";
     sc_globbed := Normal ["/ws/app/App.csproj"];
     sc_files := [ ("/ws/app/host.json", regular_file) ];
     sc_editor := Some "/ws/app/Run.cs";
     sc_binding := None;
     sc_function := Some "Run";
     sc_object := Some "[dbo].[Orders]";
     sc_setting := Some "SqlConnectionString";
     sc_listing :=
       Normal {| gaf_success := true;
                 gaf_errorMessage := "";
                 azureFunctions := ["Run"; "Stop"] |};
     sc_insert := Normal {| success := true; errorMessage := "" |} |}.

(** The language service refuses both exchanges. *)
Definition failing_service : Script :=
  {| sc_root := Some "/ws";
     sc_globbed := Normal ["/ws/app/App.csproj"];
     sc_files := [ ("/ws/app/host.json", regular_file) ];
     sc_editor := Some "/ws/app/Run.cs";
     sc_binding := Some "input";
     sc_function := Some "Run";
     sc_object := Some "[dbo].[Orders]";
     sc_setting := Some "SqlConnectionString";
     sc_listing :=
       Normal {| gaf_success := false;
                 gaf_errorMessage := "Could not parse file";
                 azureFunctions := [] |};
     sc_insert :=
       Normal {| success := false;
                 errorMessage := "Function not found" |} |}.

(** The listing works and the insert is refused. *)
Definition failing_insert : Script :=
  {| sc_root := Some "/ws";
     sc_globbed := Normal ["/ws/app/App.csproj"];
     sc_files := [ ("/ws/app/host.json", regular_file) ];
     sc_editor := Some "/ws/app/Run.cs";
     sc_binding := Some "input";
     sc_function := Some "Run";
     sc_object := Some "[dbo].[Orders]";
     sc_setting := Some "SqlConnectionString";
     sc_listing :=
       Normal {| gaf_success := true;
                 gaf_errorMessage := "";
                 azureFunctions := ["Run"] |};
     sc_insert :=
       Normal {| success := false;
                 errorMessage := "Function not found" |} |}.

(** The user picks a function and then leaves the object prompt with
    Escape. *)
Definition cancelled_object : Script :=
  {| sc_root := Some "/ws";
     sc_globbed := Normal ["/ws/app/App.csproj"];
     sc_files := [ ("/ws/app/host.json", regular_file) ];
     sc_editor := Some "/ws/app/Run.cs";
     sc_binding := Some "output";
     sc_function := Some "Run";
     sc_object := None;
     sc_setting := Some "SqlConnectionString";
     sc_listing :=
       Normal {| gaf_success := true;
                 gaf_errorMessage := "";
                 azureFunctions := ["Run"] |};
     sc_insert := Normal {| success := true; errorMessage := "" |} |}.

(** ** Vocabulary for the properties beyond the design document *)

(** The events of a project lookup: the questions to the file system, and
    a lookup that was detached. *)
Definition is_lookup_event (e : Event) : bool :=
  match e with
  | EvGlob _ | EvStat _ | EvDetached _ => true
  | _ => false
  end.

(** A run as the user and the language service see it: the prompts, the
    messages and the requests, in order, without what the project lookup
    asks of the file system. *)
Definition flow_events (t : Trace) : Trace :=
  filter (fun e => negb (is_lookup_event e)) t.

(** Whether a path holds a backslash. *)
Fixpoint has_backslash (s : string) : bool :=
  match s with
  | EmptyString => false
  | String c r => Ascii.eqb c "\" || has_backslash r
  end.

Definition is_insert_event (e : Event) : bool :=
  match e with
  | EvInsertSqlBinding _ => true
  | _ => false
  end.

Definition is_listing_event (e : Event) : bool :=
  match e with
  | EvGetAzureFunctions _ => true
  | _ => false
  end.

Definition is_error_message (e : Event) : bool :=
  match e with
  | EvShowErrorMessage _ => true
  | _ => false
  end.

(** How many events of a kind a trace holds. *)
Definition count_events (kind : Event -> bool) (t : Trace) : nat :=
  length (filter kind t).

(** The file that [insertSqlInputBinding] works on: its argument, or else
    the document of the active editor. *)
Definition target_file (h : Host) (file : option Uri) : option Uri :=
  match file with
  | Some u => Some u
  | None =>
      option_map (fun editor => document_uri (document editor))
                 (window_activeTextEditor h)
  end.

(** The glob itself fails (the workspace folder cannot be read). *)
Definition unreadable_workspace : Script :=
  {| sc_root := Some "/ws";
     sc_globbed := Throw EACCES;
     sc_files := [ ("/ws/app/host.json", regular_file) ];
     sc_editor := None;
     sc_binding := Some "input";
     sc_function := Some "Run";
     sc_object := Some "[dbo].[Orders]";
     sc_setting := Some "SqlConnectionString";
     sc_listing := Throw (HostFailure "connection closed");
     sc_insert := Throw (HostFailure "connection closed") |}.

(** Three project files; nothing below the first one may be stat-ed. *)
Definition three_projects_locked : Script :=
  {| sc_root := Some "/ws";
     sc_globbed :=
       Normal ["/ws/x/X.csproj"; "/ws/y/Y.csproj"; "/ws/z/Z.csproj"];
     sc_files :=
       [ ("/ws/x/X.csproj/host.json", Throw EACCES);
         ("/ws/y/host.json", regular_file) ];
     sc_editor := Some "/ws/y/Run.cs";
     sc_binding := Some "input";
     sc_function := Some "Run";
     sc_object := Some "[dbo].[Orders]";
     sc_setting := Some "SqlConnectionString";
     sc_listing :=
       Normal {| gaf_success := true;
                 gaf_errorMessage := "";
                 azureFunctions := ["Run"] |};
     sc_insert := Throw (HostFailure "connection closed") |}.

(** A project whose [host.json] is a directory. *)
Definition marker_is_directory : Script :=
  {| sc_root := Some "/ws";
     sc_globbed := Normal ["/ws/app/App.csproj"];
     sc_files := [ ("/ws/app/host.json", directory_entry) ];
     sc_editor := Some "/ws/app/Run.cs";
     sc_binding := Some "input";
     sc_function := Some "Run";
     sc_object := Some "[dbo].[Orders]";
     sc_setting := Some "SqlConnectionString";
     sc_listing :=
       Normal {| gaf_success := true;
                 gaf_errorMessage := "";
                 azureFunctions := ["Run"] |};
     sc_insert := Normal {| success := true; errorMessage := "" |} |}.
(** ** Running the monad *)

Lemma awaiting_async {A : Type} (m : M A) (t : Trace) :
  awaiting (async m) t = m t.
Proof.
  unfold awaiting, async, bind.
  destruct (m t) as [[a | e] t']; reflexivity.
Qed.

Lemma fs_promises_stat_run (h : Host) (p : string) (t : Trace) :
  awaiting (fs_promises_stat h p) t = (fs_stat h p, (t ++ [EvStat p])%list).
Proof.
  unfold fs_promises_stat. rewrite awaiting_async. reflexivity.
Qed.

(** What [getFileStatus] settles to, case by case on the answer of [stat]. *)
Lemma getFileStatus_run (h : Host) (p : string) (t : Trace) :
  getFileStatus h p t =
  (Normal match fs_stat h p with
          | Normal st => Fulfilled (Some st)
          | Throw e => if is_not_found e then Fulfilled None else Rejected e
          end,
   (t ++ [EvStat p])%list).
Proof.
  unfold getFileStatus, async, try_catch, bind at 1.
  rewrite fs_promises_stat_run.
  destruct (fs_stat h p) as [st | e]; [reflexivity |].
  destruct (is_not_found e); reflexivity.
Qed.

Lemma fileExist_run (h : Host) (p : string) (t : Trace) :
  fileExist h p t =
  (Normal match fs_stat h p with
          | Normal st => Fulfilled (isFile st)
          | Throw e => if is_not_found e then Fulfilled false else Rejected e
          end,
   (t ++ [EvStat p])%list).
Proof.
  unfold fileExist, async, awaiting, bind. rewrite getFileStatus_run.
  destruct (fs_stat h p) as [st | e]; [reflexivity |].
  destruct (is_not_found e); reflexivity.
Qed.

Lemma isFunctionProject_run (h : Host) (d : string) (t : Trace) :
  isFunctionProject h d t =
  (Normal match fs_stat h (path_join h [d; hostFileName]) with
          | Normal st => Fulfilled (isFile st)
          | Throw e => if is_not_found e then Fulfilled false else Rejected e
          end,
   (t ++ [EvStat (path_join h [d; hostFileName])])%list).
Proof.
  unfold isFunctionProject, async, awaiting, bind. rewrite fileExist_run.
  destruct (fs_stat h _) as [st | e]; [reflexivity |].
  destruct (is_not_found e); reflexivity.
Qed.

(** ** The marker check *)

(** C3. For every directory [d], [isFunctionProject d] stats
    [d/host.json] once and settles to false when the stat fails with the
    not-found code, to true when the stat shows a regular file, and is
    rejected with the very error of the stat when that error is any other
    one. *)
Theorem isFunctionProject_three_cases (h : Host) (d : string) (t : Trace) :
  let marker := path_join h [d; hostFileName] in
  let t' := (t ++ [EvStat marker])%list in
  (fs_stat h marker = Throw (SystemError "ENOENT") ->
   isFunctionProject h d t = (Normal (Fulfilled false), t')) /\
  (fs_stat h marker = Normal {| isFile := true |} ->
   isFunctionProject h d t = (Normal (Fulfilled true), t')) /\
  (forall e, fs_stat h marker = Throw e -> exn_code e <> Some "ENOENT" ->
   isFunctionProject h d t = (Normal (Rejected e), t')).
Proof.
  cbv zeta. repeat split; intros.
  - rewrite isFunctionProject_run, H. reflexivity.
  - rewrite isFunctionProject_run, H. reflexivity.
  - rewrite isFunctionProject_run, H.
    replace (is_not_found e) with false; [reflexivity |].
    unfold is_not_found, strict_eq. destruct (exn_code e) as [c |]; [| reflexivity].
    destruct (String.eqb_spec c "ENOENT"); [subst; congruence | reflexivity].
Qed.

Lemma isFunctionProject_three_cases_witness :
  isFunctionProject (host_of two_projects) "/ws/a" [] =
    (Normal (Fulfilled false), [EvStat "/ws/a/host.json"]) /\
  isFunctionProject (host_of two_projects) "/ws/b" [] =
    (Normal (Fulfilled true), [EvStat "/ws/b/host.json"]) /\
  isFunctionProject (host_of locked_project) "/ws/locked" [] =
    (Normal (Rejected EACCES), [EvStat "/ws/locked/host.json"]).
Proof.
  split; [| split].
  - apply (proj1 (isFunctionProject_three_cases
                    (host_of two_projects) "/ws/a" [])).
    reflexivity.
  - apply (proj1 (proj2 (isFunctionProject_three_cases
                           (host_of two_projects) "/ws/b" []))).
    reflexivity.
  - apply (proj2 (proj2 (isFunctionProject_three_cases
                           (host_of locked_project) "/ws/locked" [])) EACCES).
    + reflexivity.
    + discriminate.
Defined.

(** X3. A marker that exists but is not a regular file (a directory named
    [host.json]) does not make a functions project. *)
Lemma isFunctionProject_not_regular (h : Host) (d : string) (t : Trace) :
  fs_stat h (path_join h [d; hostFileName]) = Normal {| isFile := false |} ->
  isFunctionProject h d t =
  (Normal (Fulfilled false), (t ++ [EvStat (path_join h [d; hostFileName])])%list).
Proof.
  intros H. rewrite isFunctionProject_run, H. reflexivity.
Qed.

(** ** The project lookup *)

Lemma glob_run_await (h : Host) (pattern : string) (t : Trace) :
  awaiting (glob h pattern) t = (glob_run h pattern, (t ++ [EvGlob pattern])%list).
Proof.
  unfold glob. rewrite awaiting_async. reflexivity.
Qed.

(** The loop stops in its first iteration: its condition is a promise. *)
Lemma getFunctionsProject_loop_cons (h : Host) (p : Uri) (rest : list Uri)
    (t : Trace) :
  getFunctionsProject_loop h (p :: rest) t =
  (Normal (Some p),
   (t ++ [EvStat (path_join h [fsPath p; hostFileName])])%list).
Proof.
  cbn [getFunctionsProject_loop]. unfold bind.
  rewrite isFunctionProject_run. reflexivity.
Qed.

(** The body of [getFunctionsProject] once the folder is known and the
    glob has answered. *)
Lemma getFunctionsProject_after_glob (h : Host) (file : Uri)
    (folder : WorkspaceFolder) (found : list string) (t : Trace) :
  workspace_getWorkspaceFolder h file = Some folder ->
  glob_run h (projFilter h folder) = Normal found ->
  getFunctionsProject h file t =
  match map (fun p => Uri_file (path_resolve h p)) found with
  | [] => (Normal (Fulfilled None), (t ++ [EvGlob (projFilter h folder)])%list)
  | [c] =>
      let marker := path_join h [path_dirname h (fsPath c); hostFileName] in
      (Normal match fs_stat h marker with
              | Normal _ => Fulfilled (Some c)
              | Throw e =>
                  if is_not_found e then Fulfilled (Some c) else Rejected e
              end,
       (t ++ [EvGlob (projFilter h folder); EvStat marker])%list)
  | c :: _ :: _ =>
      (Normal (Fulfilled (Some c)),
       (t ++ [EvGlob (projFilter h folder);
              EvStat (path_join h [fsPath c; hostFileName])])%list)
  end.
Proof.
  intros Hfolder Hglob.
  unfold getFunctionsProject, async, bind at 1. rewrite Hfolder.
  cbn [deref ret bind uri]. unfold bind at 1.
  change (path_posix_join h _) with (projFilter h folder).
  rewrite glob_run_await, Hglob.
  destruct (map _ found) as [| c [| c' rest]] eqn:Hmap.
  - reflexivity.
  - cbn [length Nat.ltb Nat.leb Nat.eqb nth_error deref].
    unfold bind. cbn [ret]. unfold awaiting, bind.
    rewrite isFunctionProject_run. rewrite <- app_assoc. cbn [app].
    destruct (fs_stat h _) as [st | e]; [reflexivity |].
    destruct (is_not_found e); reflexivity.
  - cbn [length Nat.ltb Nat.leb]. unfold bind at 1.
    rewrite getFunctionsProject_loop_cons. rewrite <- app_assoc. reflexivity.
Qed.

(** With two candidates or more the answer is the first one found, and the
    only file-system question asked is a stat of [host.json] below the
    project file itself, whose answer is never read. *)
Lemma getFunctionsProject_many_returns_first (h : Host) (file : Uri)
    (folder : WorkspaceFolder) (c1 c2 : string) (rest : list string)
    (t : Trace) :
  workspace_getWorkspaceFolder h file = Some folder ->
  glob_run h (projFilter h folder) = Normal (c1 :: c2 :: rest) ->
  getFunctionsProject h file t =
  (Normal (Fulfilled (Some (Uri_file (path_resolve h c1)))),
   (t ++ [EvGlob (projFilter h folder);
          EvStat (path_join h [path_resolve h c1; hostFileName])])%list).
Proof.
  intros Hfolder Hglob.
  rewrite (getFunctionsProject_after_glob h file folder _ t Hfolder Hglob).
  reflexivity.
Qed.

(** C1. In the workspace [/ws] holding [/ws/a/Foo.csproj] (no marker beside
    it) and [/ws/b/Bar.csproj] (beside [/ws/b/host.json]),
    [getFunctionsProject] answers [/ws/a/Foo.csproj], after one stat of
    [/ws/a/Foo.csproj/host.json]; the first candidate whose directory holds
    the marker is [/ws/b/Bar.csproj]. *)
Theorem getFunctionsProject_two_projects_returns_unmarked :
  getFunctionsProject (host_of two_projects) (Uri_file "/ws/b/Function1.cs") [] =
    (Normal (Fulfilled (Some (Uri_file "/ws/a/Foo.csproj"))),
     [EvGlob "/ws/**/*.csproj"; EvStat "/ws/a/Foo.csproj/host.json"]) /\
  first_marked_candidate (host_of two_projects)
    [Uri_file "/ws/a/Foo.csproj"; Uri_file "/ws/b/Bar.csproj"] =
    Some (Uri_file "/ws/b/Bar.csproj").
Proof.
  split.
  - exact (getFunctionsProject_many_returns_first
             (host_of two_projects) (Uri_file "/ws/b/Function1.cs")
             {| uri := Uri_file "/ws" |} "/ws/a/Foo.csproj" "/ws/b/Bar.csproj"
             [] [] eq_refl eq_refl).
  - reflexivity.
Qed.

(** C4, as the code has it. When the glob finds exactly one project file
    and the stat of [host.json] beside it either succeeds ([present] is the
    status it reports, a regular file or not) or says not-found ([present]
    is [None]), [getFunctionsProject] answers that file: the marker is
    looked at and its presence does not gate the answer. *)
Theorem getFunctionsProject_single_candidate (h : Host) (file : Uri)
    (folder : WorkspaceFolder) (c : string) (present : option Stats)
    (t : Trace) :
  let project := Uri_file (path_resolve h c) in
  let marker := path_join h [path_dirname h (fsPath project); hostFileName] in
  workspace_getWorkspaceFolder h file = Some folder ->
  glob_run h (projFilter h folder) = Normal [c] ->
  fs_stat h marker =
    match present with
    | Some st => Normal st
    | None => Throw (SystemError "ENOENT")
    end ->
  getFunctionsProject h file t =
  (Normal (Fulfilled (Some project)),
   (t ++ [EvGlob (projFilter h folder); EvStat marker])%list).
Proof.
  intros project marker Hfolder Hglob Hstat.
  rewrite (getFunctionsProject_after_glob h file folder _ t Hfolder Hglob).
  cbn [map]. fold project. cbv zeta. fold marker. rewrite Hstat.
  destruct present; reflexivity.
Qed.

Lemma getFunctionsProject_single_candidate_witness :
  getFunctionsProject (host_of (single_project false)) (Uri_file "/ws/app/Run.cs") [] =
    (Normal (Fulfilled (Some (Uri_file "/ws/app/App.csproj"))),
     [EvGlob "/ws/**/*.csproj"; EvStat "/ws/app/host.json"]) /\
  getFunctionsProject (host_of (single_project true)) (Uri_file "/ws/app/Run.cs") [] =
    (Normal (Fulfilled (Some (Uri_file "/ws/app/App.csproj"))),
     [EvGlob "/ws/**/*.csproj"; EvStat "/ws/app/host.json"]).
Proof.
  split.
  - apply (getFunctionsProject_single_candidate
             (host_of (single_project false)) (Uri_file "/ws/app/Run.cs")
             {| uri := Uri_file "/ws" |} "/ws/app/App.csproj" None []);
      reflexivity.
  - apply (getFunctionsProject_single_candidate
             (host_of (single_project true)) (Uri_file "/ws/app/Run.cs")
             {| uri := Uri_file "/ws" |} "/ws/app/App.csproj"
             (Some {| isFile := true |}) []);
      reflexivity.
Defined.

(** C4, refuted as stated: in a workspace where the glob finds exactly one
    project file and the stat of [host.json] beside it is refused
    (EACCES), [getFunctionsProject] does not answer that file; it is
    rejected with the error of the stat. *)
Lemma single_candidate_withheld_on_stat_error :
  glob_run (host_of locked_project)
    (projFilter (host_of locked_project) {| uri := Uri_file "/ws" |}) =
    Normal ["/ws/locked/Only.csproj"] /\
  fs_stat (host_of locked_project) "/ws/locked/host.json" = Throw EACCES /\
  fst (getFunctionsProject (host_of locked_project)
         (Uri_file "/ws/locked/Run.cs") []) = Normal (Rejected EACCES) /\
  fst (getFunctionsProject (host_of locked_project)
         (Uri_file "/ws/locked/Run.cs") []) <>
  Normal (Fulfilled (Some (Uri_file "/ws/locked/Only.csproj"))).
Proof.
  repeat split; try reflexivity. discriminate.
Qed.

(** X5. The single candidate is still lost when the stat of the marker fails
    with an error other than not-found: the awaited check rejects. *)
Lemma getFunctionsProject_single_candidate_stat_error (h : Host) (file : Uri)
    (folder : WorkspaceFolder) (c : string) (e : Exn) (t : Trace) :
  let project := Uri_file (path_resolve h c) in
  let marker := path_join h [path_dirname h (fsPath project); hostFileName] in
  workspace_getWorkspaceFolder h file = Some folder ->
  glob_run h (projFilter h folder) = Normal [c] ->
  fs_stat h marker = Throw e ->
  is_not_found e = false ->
  getFunctionsProject h file t =
  (Normal (Rejected e),
   (t ++ [EvGlob (projFilter h folder); EvStat marker])%list).
Proof.
  intros project marker Hfolder Hglob Hstat Hcode.
  rewrite (getFunctionsProject_after_glob h file folder _ t Hfolder Hglob).
  cbn [map]. fold project. cbv zeta. fold marker. rewrite Hstat, Hcode.
  reflexivity.
Qed.

(** C5. When the glob finds no project file, [getFunctionsProject] is
    fulfilled with [undefined]; it is not rejected, and nothing is
    stat-ed. *)
Theorem getFunctionsProject_no_candidate (h : Host) (file : Uri)
    (folder : WorkspaceFolder) (t : Trace) :
  workspace_getWorkspaceFolder h file = Some folder ->
  glob_run h (projFilter h folder) = Normal [] ->
  getFunctionsProject h file t =
  (Normal (Fulfilled None), (t ++ [EvGlob (projFilter h folder)])%list).
Proof.
  intros Hfolder Hglob.
  rewrite (getFunctionsProject_after_glob h file folder _ t Hfolder Hglob).
  reflexivity.
Qed.

Lemma getFunctionsProject_no_candidate_witness :
  getFunctionsProject (host_of empty_workspace) (Uri_file "/ws/notes/Run.cs") [] =
  (Normal (Fulfilled None), [EvGlob "/ws/**/*.csproj"]).
Proof.
  apply (getFunctionsProject_no_candidate
           (host_of empty_workspace) (Uri_file "/ws/notes/Run.cs")
           {| uri := Uri_file "/ws" |} []); reflexivity.
Defined.

Lemma getFunctionsProject_deref_folder (h : Host) (file : Uri) (t : Trace) :
  workspace_getWorkspaceFolder h file = None ->
  getFunctionsProject h file t =
  (Normal (Rejected
             (TypeError "Cannot read properties of undefined (reading 'uri')")),
   t).
Proof.
  intros Hfolder. unfold getFunctionsProject, async, bind.
  rewrite Hfolder. reflexivity.
Qed.

(** C6. When the editor knows no workspace folder for the file,
    [getFunctionsProject] is rejected at once, by the property access on
    the missing folder: the trace is left as it was, so neither the glob
    nor a stat has been asked anything. *)
Theorem getFunctionsProject_no_workspace_folder (h : Host) (file : Uri)
    (t : Trace) :
  workspace_getWorkspaceFolder h file = None ->
  getFunctionsProject h file t =
  (Normal (Rejected
             (TypeError "Cannot read properties of undefined (reading 'uri')")),
   t).
Proof.
  apply getFunctionsProject_deref_folder.
Qed.

Lemma getFunctionsProject_no_workspace_folder_witness :
  getFunctionsProject (host_of outside_workspace) (Uri_file "/tmp/Scratch.cs") [] =
  (Normal (Rejected
             (TypeError "Cannot read properties of undefined (reading 'uri')")),
   []).
Proof.
  apply (getFunctionsProject_no_workspace_folder
           (host_of outside_workspace) (Uri_file "/tmp/Scratch.cs") []).
  reflexivity.
Defined.

(** ** Separators and glob symbols *)

Lemma replace_backslash_g_get (s : string) (n : nat) :
  String.get n (replace_backslash_g s) =
  option_map (fun c => if Ascii.eqb c "\" then "/"%char else c) (String.get n s).
Proof.
  revert n. induction s as [| c r IH]; intros n; [reflexivity |].
  destruct n as [| n]; cbn [replace_backslash_g String.get]; [reflexivity |].
  apply IH.
Qed.

Lemma replace_backslash_g_clean (s : string) (n : nat) :
  String.get n (replace_backslash_g s) <> Some "\"%char.
Proof.
  rewrite replace_backslash_g_get.
  destruct (String.get n s) as [c |]; cbn [option_map]; [| discriminate].
  destruct (Ascii.eqb_spec c "\"); [discriminate | congruence].
Qed.

Lemma replace_backslash_g_length (s : string) :
  String.length (replace_backslash_g s) = String.length s.
Proof.
  induction s as [| c r IH]; cbn [replace_backslash_g String.length];
    [reflexivity | now rewrite IH].
Qed.

(** C9. With a workspace folder and an answering glob: the root handed to
    [escapePath] is the folder's path with every backslash turned into a
    forward slash and nothing else changed; the glob is asked once, before
    anything else, for the escaped root joined with [**] and [*.csproj];
    and every later use of a glob result (a stat, the answer) goes through
    [path.resolve] of that result. *)
Theorem getFunctionsProject_paths_normalised (h : Host) (file : Uri)
    (folder : WorkspaceFolder) (found : list string) (t : Trace) :
  let root := fsPath (uri folder) in
  let normalised := replace_backslash_g root in
  let pattern :=
    path_posix_join h [glob_escapePath h normalised; "**"; "*.csproj"] in
  workspace_getWorkspaceFolder h file = Some folder ->
  glob_run h pattern = Normal found ->
  (forall n,
      String.get n normalised =
      option_map (fun c => if Ascii.eqb c "\" then "/"%char else c)
                 (String.get n root)) /\
  (forall n, String.get n normalised <> Some "\"%char) /\
  exists out stats,
    getFunctionsProject h file t =
      (Normal out, (t ++ EvGlob pattern :: stats)%list) /\
    Forall (fun e =>
              exists p d,
                In p found /\
                (d = path_resolve h p \/ d = path_dirname h (path_resolve h p)) /\
                e = EvStat (path_join h [d; hostFileName]))
           stats /\
    (forall u, out = Fulfilled (Some u) ->
               exists p, In p found /\ u = Uri_file (path_resolve h p)).
Proof.
  intros root normalised pattern Hfolder Hglob.
  split; [intros n; apply replace_backslash_g_get |].
  split; [intros n; apply replace_backslash_g_clean |].
  rewrite (getFunctionsProject_after_glob h file folder found t Hfolder Hglob).
  fold root normalised pattern. change (projFilter h folder) with pattern.
  destruct found as [| c1 [| c2 rest]]; cbn [map].
  - exists (Fulfilled None), []. repeat split; [constructor | discriminate].
  - cbv zeta. eexists _, [_]. split; [reflexivity |]. split.
    + constructor; [| constructor].
      exists c1, (path_dirname h (path_resolve h c1)).
      repeat split; [now left | now right].
    + intros u Hu. exists c1. split; [now left |].
      destruct (fs_stat h _) as [st | e]; [congruence |].
      destruct (is_not_found e); congruence.
  - eexists _, [_]. split; [reflexivity |]. split.
    + constructor; [| constructor].
      exists c1, (path_resolve h c1). repeat split; [now left | now left].
    + intros u Hu. exists c1. split; [now left | congruence].
Qed.

Lemma getFunctionsProject_paths_normalised_witness :
  exists out stats,
    getFunctionsProject (windows_host_of windows_project)
      (Uri_file "C:\ws[1]\a*b\src\Run.cs") [] =
      (Normal out, EvGlob "C:/ws\[1\]/a\*b/**/*.csproj" :: stats) /\
    Forall (fun e =>
              exists p d,
                In p ["C:/ws[1]/a*b/src/App.csproj"] /\
                (d = slash_to_backslash p \/
                 d = win32_dirname (slash_to_backslash p)) /\
                e = EvStat (String.concat "\" [d; hostFileName]))
           stats /\
    (forall u, out = Fulfilled (Some u) ->
               exists p, In p ["C:/ws[1]/a*b/src/App.csproj"] /\
                         u = Uri_file (slash_to_backslash p)).
Proof.
  exact (proj2 (proj2 (getFunctionsProject_paths_normalised
                         (windows_host_of windows_project)
                         (Uri_file "C:\ws[1]\a*b\src\Run.cs")
                         {| uri := Uri_file "C:\ws[1]\a*b" |}
                         ["C:/ws[1]/a*b/src/App.csproj"] []
                         eq_refl eq_refl))).
Defined.

(** On that Windows workspace the lookup asks the glob for the escaped,
    forward-slash root and answers a backslash path. *)
Example getFunctionsProject_windows_run :
  getFunctionsProject (windows_host_of windows_project)
    (Uri_file "C:\ws[1]\a*b\src\Run.cs") [] =
  (Normal (Fulfilled (Some (Uri_file "C:\ws[1]\a*b\src\App.csproj"))),
   [EvGlob "C:/ws\[1\]/a\*b/**/*.csproj";
    EvStat "C:\ws[1]\a*b\src\host.json"]).
Proof. reflexivity. Qed.

(** ** The lookup inside the insert flow *)

Lemma getFunctionsProject_glob_failure (h : Host) (file : Uri)
    (folder : WorkspaceFolder) (e : Exn) (t : Trace) :
  workspace_getWorkspaceFolder h file = Some folder ->
  glob_run h (projFilter h folder) = Throw e ->
  getFunctionsProject h file t =
  (Normal (Rejected e), (t ++ [EvGlob (projFilter h folder)])%list).
Proof.
  intros Hfolder Hglob.
  unfold getFunctionsProject, async, bind at 1. rewrite Hfolder.
  cbn [deref ret bind uri]. unfold bind at 1.
  change (path_posix_join h _) with (projFilter h folder).
  rewrite glob_run_await, Hglob. reflexivity.
Qed.

(** All that a call of [getFunctionsProject] adds to the trace are
    questions to the file system. *)
Lemma getFunctionsProject_trace (h : Host) (file : Uri) (t : Trace) :
  exists p evs,
    getFunctionsProject h file t = (Normal p, (t ++ evs)%list) /\
    Forall fs_event evs.
Proof.
  destruct (workspace_getWorkspaceFolder h file) as [folder |] eqn:Hfolder.
  - destruct (glob_run h (projFilter h folder)) as [found | e] eqn:Hglob.
    + rewrite (getFunctionsProject_after_glob h file folder found t Hfolder Hglob).
      destruct (map _ found) as [| c [| c' rest]].
      * eexists _, [_]. split; [reflexivity |]. repeat constructor.
      * cbv zeta. eexists _, [_; _]. split; [reflexivity |]. repeat constructor.
      * eexists _, [_; _]. split; [reflexivity |]. repeat constructor.
    + rewrite (getFunctionsProject_glob_failure h file folder e t Hfolder Hglob).
      eexists _, [_]. split; [reflexivity |]. repeat constructor.
  - rewrite (getFunctionsProject_deref_folder h file t Hfolder).
    exists (Rejected (TypeError "Cannot read properties of undefined (reading 'uri')")), [].
    rewrite app_nil_r. split; [reflexivity | constructor].
Qed.

(** ** The prompts and the two requests *)

Lemma showQuickPick_await (h : Host) (items : list QuickPickItem)
    (o : QuickPickOptions) (t : Trace) :
  awaiting (showQuickPick h items o) t =
  (Normal (window_showQuickPick h items o),
   (t ++ [EvShowQuickPick items o])%list).
Proof.
  unfold showQuickPick. rewrite awaiting_async. reflexivity.
Qed.

Lemma showInputBox_await (h : Host) (o : InputBoxOptions) (t : Trace) :
  awaiting (showInputBox h o) t =
  (Normal (window_showInputBox h o), (t ++ [EvShowInputBox o])%list).
Proof.
  unfold showInputBox. rewrite awaiting_async. reflexivity.
Qed.

Lemma sendRequest_InsertSqlBinding_await (h : Host)
    (params : InsertSqlBindingParams) (t : Trace) :
  awaiting (sendRequest_InsertSqlBinding h params) t =
  (send_InsertSqlBindingRequest h params,
   (t ++ [EvInsertSqlBinding params])%list).
Proof.
  unfold sendRequest_InsertSqlBinding. rewrite awaiting_async. reflexivity.
Qed.

Lemma sendRequest_GetAzureFunctions_await (h : Host)
    (params : GetAzureFunctionsParams) (t : Trace) :
  awaiting (sendRequest_GetAzureFunctions h params) t =
  (send_GetAzureFunctionsRequest h params,
   (t ++ [EvGetAzureFunctions params])%list).
Proof.
  unfold sendRequest_GetAzureFunctions. rewrite awaiting_async. reflexivity.
Qed.

(** The listing, awaited, for a file that is there. *)
Lemma getAzureFunctions_await (h : Host) (u : Uri) (t : Trace) :
  awaiting (getAzureFunctions h (Some u)) t =
  (match send_GetAzureFunctionsRequest h {| gaf_filePath := fsPath u |} with
   | Normal result =>
       if gaf_success result then Normal (azureFunctions result)
       else Throw (Error (gaf_errorMessage result))
   | Throw e => Throw e
   end,
   (t ++ [EvGetAzureFunctions {| gaf_filePath := fsPath u |}])%list).
Proof.
  unfold getAzureFunctions. rewrite awaiting_async.
  unfold bind. rewrite sendRequest_GetAzureFunctions_await.
  destruct (send_GetAzureFunctionsRequest h _) as [result | e]; [| reflexivity].
  destruct (gaf_success result); reflexivity.
Qed.

Lemma in_snoc {A : Type} (x y : A) (l : list A) :
  In x (l ++ [y]) <-> In x l \/ x = y.
Proof.
  rewrite in_app_iff. cbn [In]. intuition congruence.
Qed.

Lemma fs_events_only (evs : list Event) (e : Event) :
  Forall fs_event evs -> In e evs -> fs_event e.
Proof.
  intros Hall Hin. rewrite Forall_forall in Hall. now apply Hall.
Qed.

(** One step of a body: the first [bind] of the goal runs a prompt, a
    request or the lookup. *)
Ltac run_prompt :=
  unfold bind at 1;
  first [ rewrite showQuickPick_await
        | rewrite showInputBox_await
        | rewrite getAzureFunctions_await
        | rewrite sendRequest_InsertSqlBinding_await ];
  cbv beta iota.

Ltac run_guard v :=
  unfold unless_falsy at 1;
  let s := fresh "s" in
  let Hs := fresh "Hs" in
  let Ht := fresh "Htruthy" in
  destruct v as [s |] eqn:Hs;
  [ destruct (ToBoolean_string (Some s)) eqn:Ht |].

(** The body of [insertSqlInputBinding] from the lookup on, by cases: on
    the listing, the three guarded prompts and the insert answer.  Each
    case leaves the run as a closed pair of an outcome and a trace. *)
Ltac insert_body h :=
  unfold bind at 1;
  match goal with
  | |- context [unawaited (getFunctionsProject h ?f) ?t] =>
      let p := fresh "project" in
      let evs := fresh "evs" in
      let Hrun := fresh "Hlookup" in
      let Hfs := fresh "Hfs" in
      destruct (getFunctionsProject_trace h f []) as (p & evs & Hrun & Hfs);
      unfold unawaited; rewrite Hrun; cbv beta iota
  end;
  run_prompt; run_prompt;
  let Hlisting := fresh "Hlisting" in
  let Hok := fresh "Hok" in
  let Hfns := fresh "Hfunctions" in
  destruct (send_GetAzureFunctionsRequest h _) as [? | ?] eqn:Hlisting;
  [ match goal with
    | |- context [gaf_success ?r] =>
        destruct (gaf_success r) eqn:Hok;
        [ destruct (azureFunctions r) as [| ? ?] eqn:Hfns;
          [ cbn [length Nat.eqb]; unfold showErrorMessage, emit
          | cbn [length Nat.eqb]; run_prompt;
            match goal with
            | |- context [unless_falsy ?v _] => run_guard v
            end;
            [ run_prompt;
              match goal with
              | |- context [unless_falsy ?v _] => run_guard v
              end;
              [ run_prompt;
                match goal with
                | |- context [unless_falsy ?v _] => run_guard v
                end;
                [ run_prompt;
                  let Hins := fresh "Hinsert" in
                  let Hsucc := fresh "Hsuccess" in
                  destruct (send_InsertSqlBindingRequest h _) as [? | ?] eqn:Hins;
                  [ match goal with
                    | |- context [success ?r] =>
                        destruct (success r) eqn:Hsucc;
                        cbn [negb]; unfold showErrorMessage, emit, ret
                    end
                  | ]
                | unfold ret | unfold ret ]
              | unfold ret | unfold ret ]
            | unfold ret | unfold ret ] ]
        | ]
    end
  | ].

(** The same, from the entry of the function: first the file, or else the
    document of the active editor. *)
Ltac insert_cases h file :=
  unfold insertSqlInputBinding, async;
  unfold bind at 1;
  let u := fresh "u" in
  let Hed := fresh "Heditor" in
  destruct file as [u |];
  [ cbn [ret]; insert_body h
  | unfold bind at 1; destruct (window_activeTextEditor h) as [? |] eqn:Hed;
    cbn [deref ret throw]; cbv beta iota; [ insert_body h | ] ].

Lemma ToBoolean_string_true (s : string) :
  ToBoolean_string (Some s) = true -> s <> "".
Proof.
  unfold ToBoolean_string. intros H ->. discriminate.
Qed.

Lemma ToBoolean_string_nonempty (s : string) :
  s <> "" -> ToBoolean_string (Some s) = true.
Proof.
  unfold ToBoolean_string. intros H.
  destruct (String.eqb_spec s ""); [contradiction | reflexivity].
Qed.

(** Membership in a trace built by appending, down to its events. *)
Ltac split_trace H :=
  repeat rewrite in_snoc in H;
  cbn [app In] in H;
  repeat match type of H with
         | _ \/ _ => destruct H as [H | H]
         end.

(** Two events that are the same event: their arguments are the same. *)
Ltac same_event H := injection H; clear H; intros; subst.

(** An event that is in a trace built by appending. *)
Ltac in_trace :=
  cbn [app];
  repeat first [ left; reflexivity
               | right
               | apply in_or_app; right; left; reflexivity
               | apply in_or_app; left ].

(** An event that is in a closed trace. *)
Ltac find_event :=
  repeat first [ left; reflexivity | right ].

(** An event of the lookup is none of the events of the flow. *)
Ltac not_fs_event :=
  match goal with
  | Hfs : Forall fs_event ?evs, Hin : In _ ?evs |- _ =>
      exfalso; exact (fs_events_only _ _ Hfs Hin)
  end.

(** ** The insert flow *)

(** What a sent insert request is made of. *)
Lemma insert_request_shape (h : Host) (file : option Uri)
    (out : Completion (Promise unit)) (t' : Trace)
    (params : InsertSqlBindingParams) :
  insertSqlInputBinding h file [] = (out, t') ->
  In (EvInsertSqlBinding params) t' ->
  (functionName params <> "" /\
   exists items,
     In (EvShowQuickPick items functionPickOptions) t' /\
     option_map label (window_showQuickPick h items functionPickOptions) =
     Some (functionName params)) /\
  (objectName params <> "" /\
   In (EvShowInputBox (objectInputOptions h)) t' /\
   window_showInputBox h (objectInputOptions h) = Some (objectName params)) /\
  (connectionStringSetting params <> "" /\
   In (EvShowInputBox settingInputOptions) t' /\
   window_showInputBox h settingInputOptions =
   Some (connectionStringSetting params)) /\
  bindingType params = requestedBindingType h.
Proof.
  revert out t'.
  insert_cases h file; intros out t' Heq Hin; injection Heq as <- <-.
  all: split_trace Hin; try contradiction; try discriminate; try not_fs_event.
  all: same_event Hin; cbn [functionName objectName connectionStringSetting bindingType].
  all: repeat split; auto using ToBoolean_string_true; try in_trace.
  all: eexists; split; [in_trace | eassumption].
Qed.


(** X23. Whenever a run of [insertSqlInputBinding] sends the insert
    request, the function name, the target object and the
    connection-string setting in it are non-empty answers of their
    prompts, each shown in that run, and its binding direction is the one
    computed from the answer of the binding-type picker. *)
Theorem insert_request_needs_resolved_names (h : Host) (file : option Uri)
    (out : Completion (Promise unit)) (t' : Trace)
    (params : InsertSqlBindingParams) :
  insertSqlInputBinding h file [] = (out, t') ->
  In (EvInsertSqlBinding params) t' ->
  (functionName params <> "" /\
   exists items,
     In (EvShowQuickPick items functionPickOptions) t' /\
     option_map label (window_showQuickPick h items functionPickOptions) =
     Some (functionName params)) /\
  (objectName params <> "" /\
   In (EvShowInputBox (objectInputOptions h)) t' /\
   window_showInputBox h (objectInputOptions h) = Some (objectName params)) /\
  (connectionStringSetting params <> "" /\
   In (EvShowInputBox settingInputOptions) t' /\
   window_showInputBox h settingInputOptions =
   Some (connectionStringSetting params)) /\
  bindingType params = requestedBindingType h.
Proof.
  apply insert_request_shape.
Qed.

Lemma insert_request_needs_resolved_names_witness :
  ("Run" <> "" /\
   exists items,
     In (EvShowQuickPick items functionPickOptions)
        (snd (insertSqlInputBinding (host_of (single_project true))
                (Some (Uri_file "/ws/app/Run.cs")) [])) /\
     option_map label
       (window_showQuickPick (host_of (single_project true)) items
          functionPickOptions) = Some "Run") /\
  ("[dbo].[Orders]" <> "" /\
   In (EvShowInputBox (objectInputOptions (host_of (single_project true))))
      (snd (insertSqlInputBinding (host_of (single_project true))
              (Some (Uri_file "/ws/app/Run.cs")) [])) /\
   window_showInputBox (host_of (single_project true))
     (objectInputOptions (host_of (single_project true))) =
   Some "[dbo].[Orders]") /\
  ("SqlConnectionString" <> "" /\
   In (EvShowInputBox settingInputOptions)
      (snd (insertSqlInputBinding (host_of (single_project true))
              (Some (Uri_file "/ws/app/Run.cs")) [])) /\
   window_showInputBox (host_of (single_project true)) settingInputOptions =
   Some "SqlConnectionString") /\
  output = requestedBindingType (host_of (single_project true)).
Proof.
  apply (insert_request_needs_resolved_names
           (host_of (single_project true)) (Some (Uri_file "/ws/app/Run.cs"))
           (fst (insertSqlInputBinding (host_of (single_project true))
                   (Some (Uri_file "/ws/app/Run.cs")) []))
           (snd (insertSqlInputBinding (host_of (single_project true))
                   (Some (Uri_file "/ws/app/Run.cs")) []))
           {| filePath := "/ws/app/Run.cs";
              functionName := "Run";
              objectName := "[dbo].[Orders]";
              bindingType := output;
              connectionStringSetting := "SqlConnectionString" |}).
  - reflexivity.
  - vm_compute. find_event.
Defined.

(** The run in which the binding-type picker is cancelled and the other
    prompts are answered: what the user and the language service see of
    it. *)
Example cancelled_binding_run :
  fst (insertSqlInputBinding (host_of cancelled_binding)
         (Some (Uri_file "/ws/app/Run.cs")) []) = Normal (Fulfilled tt) /\
  flow_events
    (snd (insertSqlInputBinding (host_of cancelled_binding)
            (Some (Uri_file "/ws/app/Run.cs")) [])) =
  [ EvShowQuickPick intputOutputItems bindingPickOptions;
    EvGetAzureFunctions {| gaf_filePath := "/ws/app/Run.cs" |};
    EvShowQuickPick [ {| label := "Run" |}; {| label := "Stop" |} ]
      functionPickOptions;
    EvShowInputBox
      {| prompt := "Table to put in binding";
         value := Some "[dbo].[placeholder]";
         ignoreFocusOut := true |};
    EvShowInputBox settingInputOptions;
    EvInsertSqlBinding
      {| filePath := "/ws/app/Run.cs";
         functionName := "Run";
         objectName := "[dbo].[Orders]";
         bindingType := output;
         connectionStringSetting := "SqlConnectionString" |} ].
Proof. split; reflexivity. Qed.

(** C2. With the binding-type picker cancelled and the three other prompts
    answered, a prompt value is missing and the insert request is sent all
    the same: the rule that every prompt gates the request does not hold
    of this run. *)
Lemma insert_not_gated_by_binding_pick :
  ~ insert_gated_by_every_prompt (host_of cancelled_binding)
      (Some (Uri_file "/ws/app/Run.cs")).
Proof.
  intros Hgate.
  apply (Hgate
           (fst (insertSqlInputBinding (host_of cancelled_binding)
                   (Some (Uri_file "/ws/app/Run.cs")) []))
           (snd (insertSqlInputBinding (host_of cancelled_binding)
                   (Some (Uri_file "/ws/app/Run.cs")) []))
           eq_refl) with
    (params := {| filePath := "/ws/app/Run.cs";
                  functionName := "Run";
                  objectName := "[dbo].[Orders]";
                  bindingType := output;
                  connectionStringSetting := "SqlConnectionString" |}).
  - left. exists intputOutputItems. split.
    + vm_compute. find_event.
    + reflexivity.
  - vm_compute. find_event.
Qed.

(** ** Failure answers of the language service *)

Lemma getAzureFunctions_run (h : Host) (u : Uri) (t : Trace) :
  getAzureFunctions h (Some u) t =
  (Normal match send_GetAzureFunctionsRequest h {| gaf_filePath := fsPath u |} with
          | Normal result =>
              if gaf_success result then Fulfilled (azureFunctions result)
              else Rejected (Error (gaf_errorMessage result))
          | Throw e => Rejected e
          end,
   (t ++ [EvGetAzureFunctions {| gaf_filePath := fsPath u |}])%list).
Proof.
  unfold getAzureFunctions, async, bind.
  rewrite sendRequest_GetAzureFunctions_await.
  destruct (send_GetAzureFunctionsRequest h _) as [result | e]; [| reflexivity].
  destruct (gaf_success result); reflexivity.
Qed.

(** The flow events of a closed trace end with the given events. *)
Ltac flow_ends :=
  cbn [flow_events filter is_lookup_event negb];
  match goal with
  | |- exists before, ?L = (before ++ ?tail)%list =>
      exists (firstn (length L - length tail) L); reflexivity
  end.

(** C7. When the listing exchange answers with its success flag down,
    [getAzureFunctions] is rejected with an [Error] carrying the answer's
    message.  When the insert exchange of a run of [insertSqlInputBinding]
    answers with its success flag down, the run is fulfilled, and it has
    shown the answer's message as an error message: that message is the
    last thing the user and the language service see of the run, right
    after the insert request. *)
Theorem remote_failure_is_asymmetric (h : Host) :
  (forall (u : Uri) (t : Trace) (result : GetAzureFunctionsResult),
      send_GetAzureFunctionsRequest h {| gaf_filePath := fsPath u |} =
        Normal result ->
      gaf_success result = false ->
      getAzureFunctions h (Some u) t =
      (Normal (Rejected (Error (gaf_errorMessage result))),
       (t ++ [EvGetAzureFunctions {| gaf_filePath := fsPath u |}])%list)) /\
  (forall (file : option Uri) (out : Completion (Promise unit)) (t' : Trace)
          (params : InsertSqlBindingParams) (result : ResultStatus),
      insertSqlInputBinding h file [] = (out, t') ->
      In (EvInsertSqlBinding params) t' ->
      send_InsertSqlBindingRequest h params = Normal result ->
      success result = false ->
      out = Normal (Fulfilled tt) /\
      In (EvShowErrorMessage (errorMessage result)) t' /\
      exists before,
        flow_events t' =
        (before ++ [EvInsertSqlBinding params;
                    EvShowErrorMessage (errorMessage result)])%list).
Proof.
  split.
  - intros u t result Hsend Hflag.
    rewrite getAzureFunctions_run, Hsend, Hflag. reflexivity.
  - intros file out t' params result. revert out t'.
    insert_cases h file; intros out t' Heq Hin Hsend Hflag;
      injection Heq as <- <-.
    all: split_trace Hin; try contradiction; try discriminate;
      try not_fs_event.
    all: same_event Hin.
    all: try congruence.
    all: match goal with
         | Hi : send_InsertSqlBindingRequest _ ?p = Normal ?a,
           Hs : send_InsertSqlBindingRequest _ ?p = Normal ?r
           |- context [errorMessage ?a] =>
             assert (a = r) by congruence; subst a
         end.
    all: split; [reflexivity |].
    all: split; [in_trace | flow_ends].
Qed.

Lemma remote_failure_is_asymmetric_witness :
  getAzureFunctions (host_of failing_service) (Some (Uri_file "/ws/app/Run.cs")) [] =
    (Normal (Rejected (Error "Could not parse file")),
     [EvGetAzureFunctions {| gaf_filePath := "/ws/app/Run.cs" |}]) /\
  fst (insertSqlInputBinding (host_of failing_insert)
         (Some (Uri_file "/ws/app/Run.cs")) []) = Normal (Fulfilled tt) /\
  In (EvShowErrorMessage "Function not found")
     (snd (insertSqlInputBinding (host_of failing_insert)
             (Some (Uri_file "/ws/app/Run.cs")) [])) /\
  exists before,
    flow_events
      (snd (insertSqlInputBinding (host_of failing_insert)
              (Some (Uri_file "/ws/app/Run.cs")) [])) =
    (before ++
     [EvInsertSqlBinding
        {| filePath := "/ws/app/Run.cs";
           functionName := "Run";
           objectName := "[dbo].[Orders]";
           bindingType := input;
           connectionStringSetting := "SqlConnectionString" |};
      EvShowErrorMessage "Function not found"])%list.
Proof.
  split.
  - apply (proj1 (remote_failure_is_asymmetric (host_of failing_service))
             (Uri_file "/ws/app/Run.cs") []
             {| gaf_success := false;
                gaf_errorMessage := "Could not parse file";
                azureFunctions := [] |});
      reflexivity.
  - apply (proj2 (remote_failure_is_asymmetric (host_of failing_insert))
             (Some (Uri_file "/ws/app/Run.cs"))
             (fst (insertSqlInputBinding (host_of failing_insert)
                     (Some (Uri_file "/ws/app/Run.cs")) []))
             (snd (insertSqlInputBinding (host_of failing_insert)
                     (Some (Uri_file "/ws/app/Run.cs")) []))
             {| filePath := "/ws/app/Run.cs";
                functionName := "Run";
                objectName := "[dbo].[Orders]";
                bindingType := input;
                connectionStringSetting := "SqlConnectionString" |}
             {| success := false; errorMessage := "Function not found" |}).
    + reflexivity.
    + vm_compute. find_event.
    + reflexivity.
    + reflexivity.
Defined.

(** ** Missing inputs *)

(** The run in which the object prompt is cancelled: what the user and the
    language service see of it. *)
Example cancelled_object_run :
  fst (insertSqlInputBinding (host_of cancelled_object)
         (Some (Uri_file "/ws/app/Run.cs")) []) = Normal (Fulfilled tt) /\
  flow_events
    (snd (insertSqlInputBinding (host_of cancelled_object)
            (Some (Uri_file "/ws/app/Run.cs")) [])) =
  [ EvShowQuickPick intputOutputItems bindingPickOptions;
    EvGetAzureFunctions {| gaf_filePath := "/ws/app/Run.cs" |};
    EvShowQuickPick [ {| label := "Run" |} ] functionPickOptions;
    EvShowInputBox
      {| prompt := "Table to put in binding";
         value := Some "[dbo].[placeholder]";
         ignoreFocusOut := true |} ].
Proof. split; reflexivity. Qed.

(** C8. With the binding-type picker cancelled and the three other prompts
    answered, the binding-type prompt is shown, its value is absent, and
    the run goes on to send the insert request instead of returning. *)
Lemma absent_binding_pick_does_not_abort :
  In (EvShowQuickPick intputOutputItems bindingPickOptions)
     (snd (insertSqlInputBinding (host_of cancelled_binding)
             (Some (Uri_file "/ws/app/Run.cs")) [])) /\
  window_showQuickPick (host_of cancelled_binding) intputOutputItems
    bindingPickOptions = None /\
  In (EvInsertSqlBinding
        {| filePath := "/ws/app/Run.cs";
           functionName := "Run";
           objectName := "[dbo].[Orders]";
           bindingType := output;
           connectionStringSetting := "SqlConnectionString" |})
     (snd (insertSqlInputBinding (host_of cancelled_binding)
             (Some (Uri_file "/ws/app/Run.cs")) [])).
Proof.
  split; [| split].
  - vm_compute. find_event.
  - reflexivity.
  - vm_compute. find_event.
Qed.

(** No event of the given kind in a trace built by appending. *)
Ltac absent_from_trace :=
  let e := fresh "e" in
  let Hin := fresh "Hin" in
  intros e Hin; split_trace Hin;
  try contradiction; try discriminate; try not_fs_event.

(** A guarded prompt that is in the trace and unanswered, against the
    answers recorded by the case analysis. *)
Ltac refute_unanswered Hg :=
  unfold guarded_prompt_unanswered, unanswered_pick, unanswered_input,
    functionPickOptions in Hg;
  let items := fresh "items" in
  let o := fresh "o" in
  let Hin := fresh "Hin" in
  let Hfalsy := fresh "Hfalsy" in
  destruct Hg as [(items & Hin & Hfalsy) | (o & Hin & Hfalsy)];
  split_trace Hin;
  try contradiction; try discriminate; try not_fs_event;
  same_event Hin; cbn [map] in *; congruence.

(** X24. [getAzureFunctions] without a file is fulfilled
    with the empty list and asks nothing of anyone.  A run of
    [insertSqlInputBinding] in which the function picker, the object
    prompt or the connection-string prompt was shown and came back with
    nothing is fulfilled, has sent no insert request and has shown no
    error message. *)
Theorem absent_input_aborts_silently (h : Host) :
  (forall t : Trace, getAzureFunctions h None t = (Normal (Fulfilled []), t)) /\
  (forall (file : option Uri) (out : Completion (Promise unit)) (t' : Trace),
      insertSqlInputBinding h file [] = (out, t') ->
      guarded_prompt_unanswered h t' ->
      out = Normal (Fulfilled tt) /\
      (forall params, ~ In (EvInsertSqlBinding params) t') /\
      (forall message, ~ In (EvShowErrorMessage message) t')).
Proof.
  split; [reflexivity |].
  intros file out t'. revert out t'.
  insert_cases h file; intros out t' Heq Hg; injection Heq as <- <-.
  all: first
         [ solve [ split; [reflexivity | split; absent_from_trace] ]
         | solve [ refute_unanswered Hg ] ].
Qed.

Lemma absent_input_aborts_silently_witness :
  getAzureFunctions (host_of cancelled_object) None [] =
    (Normal (Fulfilled []), []) /\
  fst (insertSqlInputBinding (host_of cancelled_object)
         (Some (Uri_file "/ws/app/Run.cs")) []) = Normal (Fulfilled tt) /\
  (forall params,
      ~ In (EvInsertSqlBinding params)
          (snd (insertSqlInputBinding (host_of cancelled_object)
                  (Some (Uri_file "/ws/app/Run.cs")) []))) /\
  (forall message,
      ~ In (EvShowErrorMessage message)
          (snd (insertSqlInputBinding (host_of cancelled_object)
                  (Some (Uri_file "/ws/app/Run.cs")) []))).
Proof.
  split.
  - apply (proj1 (absent_input_aborts_silently (host_of cancelled_object))).
  - apply (proj2 (absent_input_aborts_silently (host_of cancelled_object))
             (Some (Uri_file "/ws/app/Run.cs"))).
    + reflexivity.
    + right. exists (objectInputOptions (host_of cancelled_object)). split.
      * vm_compute. find_event.
      * reflexivity.
Defined.

(** ** The binding direction *)

(** C10. Every insert request that a run of [insertSqlInputBinding] sends
    carries the direction [input] if the binding-type picker came back
    with the label 'input' and [output] for every other outcome of that
    picker, a cancelled one included.  And the picker holds nothing back:
    whatever it came back with, once the listing has answered with a
    function and the three other prompts are answered, the request is
    sent, with that direction. *)
Theorem binding_direction_defaults_to_output (h : Host) :
  (forall (file : option Uri) (out : Completion (Promise unit)) (t' : Trace)
          (params : InsertSqlBindingParams),
      insertSqlInputBinding h file [] = (out, t') ->
      In (EvInsertSqlBinding params) t' ->
      bindingType params =
      match option_map label
              (window_showQuickPick h intputOutputItems
                 {| canPickMany := false; title := "Type of binding:" |}) with
      | Some picked => if String.eqb picked "input" then input else output
      | None => output
      end) /\
  (forall (u : Uri) (listing : GetAzureFunctionsResult)
          (fn obj setting : string),
      send_GetAzureFunctionsRequest h {| gaf_filePath := fsPath u |} =
        Normal listing ->
      gaf_success listing = true ->
      azureFunctions listing <> [] ->
      option_map label
        (window_showQuickPick h
           (map (fun aFName => {| label := aFName |}) (azureFunctions listing))
           functionPickOptions) = Some fn ->
      fn <> "" ->
      window_showInputBox h (objectInputOptions h) = Some obj ->
      obj <> "" ->
      window_showInputBox h settingInputOptions = Some setting ->
      setting <> "" ->
      exists out t',
        insertSqlInputBinding h (Some u) [] = (out, t') /\
        In (EvInsertSqlBinding
              {| filePath := fsPath u;
                 functionName := fn;
                 objectName := obj;
                 bindingType :=
                   match selectedBinding h with
                   | Some picked =>
                       if String.eqb picked "input" then input else output
                   | None => output
                   end;
                 connectionStringSetting := setting |}) t').
Proof.
  split.
  - intros file out t' params Hrun Hin.
    rewrite (proj2 (proj2 (proj2
               (insert_request_shape h file out t' params Hrun Hin)))).
    unfold requestedBindingType, selectedBinding, strict_eq.
    destruct (option_map label _); reflexivity.
  - intros u listing fn obj setting
      Hlisting Hok Hfns Hfn Hfn_ne Hobj Hobj_ne Hset Hset_ne.
    destruct (getFunctionsProject_trace h u []) as (p & evs & Hlookup & Hfs).
    destruct (azureFunctions listing) as [| f fs] eqn:Hlist; [contradiction |].
    apply ToBoolean_string_nonempty in Hfn_ne, Hobj_ne, Hset_ne.
    unfold insertSqlInputBinding, async. unfold bind at 1. cbn [ret].
    unfold bind at 1. unfold unawaited. rewrite Hlookup. cbv beta iota.
    run_prompt. run_prompt. rewrite Hlisting, Hok, Hlist.
    cbn [length Nat.eqb]. run_prompt.
    unfold functionPickOptions in Hfn.
    unfold objectInputOptions, selectedBinding, bindingPickOptions in Hobj.
    unfold settingInputOptions in Hset.
    unfold unless_falsy at 1. rewrite Hfn, Hfn_ne.
    run_prompt. unfold unless_falsy at 1. rewrite Hobj, Hobj_ne.
    run_prompt. unfold unless_falsy at 1. rewrite Hset, Hset_ne.
    run_prompt.
    assert (Hdir :
              (if strict_eq
                    (option_map label
                       (window_showQuickPick h intputOutputItems
                          {| canPickMany := false; title := "Type of binding:" |}))
                    "input"
               then input else output) =
              match selectedBinding h with
              | Some picked =>
                  if String.eqb picked "input" then input else output
              | None => output
              end).
    { unfold selectedBinding, strict_eq, bindingPickOptions.
      destruct (option_map label (window_showQuickPick h intputOutputItems _));
        reflexivity. }
    rewrite Hdir.
    destruct (send_InsertSqlBindingRequest h _) as [result | e].
    + destruct (success result); cbn [negb];
        unfold showErrorMessage, emit, ret;
        eexists _, _; (split; [reflexivity | in_trace]).
    + eexists _, _. split; [reflexivity | in_trace].
Qed.

Lemma binding_direction_defaults_to_output_witness :
  selectedBinding (host_of cancelled_binding) = None /\
  output = output /\
  exists out t',
    insertSqlInputBinding (host_of cancelled_binding)
      (Some (Uri_file "/ws/app/Run.cs")) [] = (out, t') /\
    In (EvInsertSqlBinding
          {| filePath := "/ws/app/Run.cs";
             functionName := "Run";
             objectName := "[dbo].[Orders]";
             bindingType := output;
             connectionStringSetting := "SqlConnectionString" |}) t'.
Proof.
  split; [reflexivity |]. split.
  - apply (proj1 (binding_direction_defaults_to_output
                    (host_of cancelled_binding))
             (Some (Uri_file "/ws/app/Run.cs"))
             (fst (insertSqlInputBinding (host_of cancelled_binding)
                     (Some (Uri_file "/ws/app/Run.cs")) []))
             (snd (insertSqlInputBinding (host_of cancelled_binding)
                     (Some (Uri_file "/ws/app/Run.cs")) []))
             {| filePath := "/ws/app/Run.cs";
                functionName := "Run";
                objectName := "[dbo].[Orders]";
                bindingType := output;
                connectionStringSetting := "SqlConnectionString" |}).
    + reflexivity.
    + vm_compute. find_event.
  - apply (proj2 (binding_direction_defaults_to_output
                    (host_of cancelled_binding))
             (Uri_file "/ws/app/Run.cs")
             {| gaf_success := true;
                gaf_errorMessage := "";
                azureFunctions := ["Run"; "Stop"] |}
             "Run" "[dbo].[Orders]" "SqlConnectionString");
      first [ reflexivity | discriminate ].
Defined.

(** With the label 'input' picked, the request carries [input]. *)
Example input_binding_run :
  fst (insertSqlInputBinding (host_of two_projects) None []) =
    Normal (Fulfilled tt) /\
  flow_events (snd (insertSqlInputBinding (host_of two_projects) None [])) =
  [ EvShowQuickPick intputOutputItems bindingPickOptions;
    EvGetAzureFunctions {| gaf_filePath := "/ws/b/Function1.cs" |};
    EvShowQuickPick [ {| label := "Function1" |} ] functionPickOptions;
    EvShowInputBox
      {| prompt := "Object to put in binding:";
         value := Some "[dbo].[placeholder]";
         ignoreFocusOut := true |};
    EvShowInputBox settingInputOptions;
    EvInsertSqlBinding
      {| filePath := "/ws/b/Function1.cs";
         functionName := "Function1";
         objectName := "[dbo].[Orders]";
         bindingType := input;
         connectionStringSetting := "SqlConnectionString" |} ].
Proof. split; reflexivity. Qed.

(** * Further properties of the service *)

(** ** File status *)

Lemma is_not_found_iff (e : Exn) :
  is_not_found e = true <-> exn_code e = Some "ENOENT".
Proof.
  unfold is_not_found, strict_eq. destruct (exn_code e) as [c |].
  - destruct (String.eqb_spec c "ENOENT"); split; congruence.
  - split; discriminate.
Qed.

(** X1. [getFileStatus] answers [undefined] exactly when the stat failed
    with the code ENOENT, and is rejected with an error exactly when the
    stat failed with that error and the error's code is not ENOENT (an
    error without a code included). *)
Theorem getFileStatus_hides_only_not_found (h : Host) (p : string) (t : Trace) :
  (getFileStatus h p t = (Normal (Fulfilled None), (t ++ [EvStat p])%list) <->
   exists e, fs_stat h p = Throw e /\ exn_code e = Some "ENOENT") /\
  (forall e,
      getFileStatus h p t = (Normal (Rejected e), (t ++ [EvStat p])%list) <->
      fs_stat h p = Throw e /\ exn_code e <> Some "ENOENT").
Proof.
  rewrite getFileStatus_run. split; [| intros e0]; split.
  - destruct (fs_stat h p) as [st | e] eqn:Hstat; [discriminate |].
    destruct (is_not_found e) eqn:Hnf; [| discriminate].
    intros _. exists e. split; [reflexivity | now apply is_not_found_iff].
  - intros (e & -> & Hcode). apply is_not_found_iff in Hcode.
    now rewrite Hcode.
  - destruct (fs_stat h p) as [st | e] eqn:Hstat; [discriminate |].
    destruct (is_not_found e) eqn:Hnf; [discriminate |].
    intros Heq. injection Heq as <-. split; [reflexivity |].
    intros Hcode. apply is_not_found_iff in Hcode. congruence.
  - intros (-> & Hcode).
    destruct (is_not_found e0) eqn:Hnf; [| reflexivity].
    apply is_not_found_iff in Hnf. contradiction.
Qed.

(** X2. [fileExist] answers true exactly when the stat succeeded on a
    regular file; a directory, a missing path and a failing stat never give
    true. *)
Theorem fileExist_true_iff_regular_file (h : Host) (p : string) (t : Trace) :
  fileExist h p t = (Normal (Fulfilled true), (t ++ [EvStat p])%list) <->
  exists st, fs_stat h p = Normal st /\ isFile st = true.
Proof.
  rewrite fileExist_run. split.
  - destruct (fs_stat h p) as [st | e].
    + intros Heq. exists st. split; [reflexivity | congruence].
    + destruct (is_not_found e); discriminate.
  - intros (st & -> & Hfile). now rewrite Hfile.
Qed.

Lemma isFunctionProject_not_regular_witness :
  isFunctionProject (host_of marker_is_directory) "/ws/app" [] =
  (Normal (Fulfilled false), [EvStat "/ws/app/host.json"]).
Proof.
  apply (isFunctionProject_not_regular (host_of marker_is_directory) "/ws/app" []).
  reflexivity.
Defined.

(** ** More on the project lookup *)

(** X4. When the glob itself fails, [getFunctionsProject] is rejected with
    the error of the glob, and nothing is stat-ed. *)
Theorem getFunctionsProject_glob_error_propagates (h : Host) (file : Uri)
    (folder : WorkspaceFolder) (e : Exn) (t : Trace) :
  workspace_getWorkspaceFolder h file = Some folder ->
  glob_run h (projFilter h folder) = Throw e ->
  getFunctionsProject h file t =
  (Normal (Rejected e), (t ++ [EvGlob (projFilter h folder)])%list).
Proof.
  apply getFunctionsProject_glob_failure.
Qed.

Lemma getFunctionsProject_glob_error_propagates_witness :
  getFunctionsProject (host_of unreadable_workspace) (Uri_file "/ws/app/Run.cs") [] =
  (Normal (Rejected EACCES), [EvGlob "/ws/**/*.csproj"]).
Proof.
  apply (getFunctionsProject_glob_error_propagates
           (host_of unreadable_workspace) (Uri_file "/ws/app/Run.cs")
           {| uri := Uri_file "/ws" |} EACCES []); reflexivity.
Defined.

Lemma getFunctionsProject_single_candidate_stat_error_witness :
  getFunctionsProject (host_of locked_project) (Uri_file "/ws/locked/Run.cs") [] =
  (Normal (Rejected EACCES),
   [EvGlob "/ws/**/*.csproj"; EvStat "/ws/locked/host.json"]).
Proof.
  apply (getFunctionsProject_single_candidate_stat_error
           (host_of locked_project) (Uri_file "/ws/locked/Run.cs")
           {| uri := Uri_file "/ws" |} "/ws/locked/Only.csproj" EACCES []);
    reflexivity.
Defined.

(** X6. When the glob finds two project files or more, the lookup is
    fulfilled with the first of them whatever the file system answers: the
    one stat it starts is of [host.json] below that project file, and its
    answer, an error included, is not waited for. *)
Theorem getFunctionsProject_many_ignores_stat (h : Host) (file : Uri)
    (folder : WorkspaceFolder) (c1 c2 : string) (rest : list string)
    (t : Trace) :
  workspace_getWorkspaceFolder h file = Some folder ->
  glob_run h (projFilter h folder) = Normal (c1 :: c2 :: rest) ->
  getFunctionsProject h file t =
  (Normal (Fulfilled (Some (Uri_file (path_resolve h c1)))),
   (t ++ [EvGlob (projFilter h folder);
          EvStat (path_join h [path_resolve h c1; hostFileName])])%list).
Proof.
  intros Hfolder Hglob.
  rewrite (getFunctionsProject_after_glob h file folder _ t Hfolder Hglob).
  reflexivity.
Qed.

Lemma getFunctionsProject_many_ignores_stat_witness :
  fs_stat (host_of three_projects_locked) "/ws/x/X.csproj/host.json" =
    Throw EACCES /\
  getFunctionsProject (host_of three_projects_locked)
    (Uri_file "/ws/y/Run.cs") [] =
  (Normal (Fulfilled (Some (Uri_file "/ws/x/X.csproj"))),
   [EvGlob "/ws/**/*.csproj"; EvStat "/ws/x/X.csproj/host.json"]).
Proof.
  split; [reflexivity |].
  apply (getFunctionsProject_many_ignores_stat
           (host_of three_projects_locked) (Uri_file "/ws/y/Run.cs")
           {| uri := Uri_file "/ws" |}
           "/ws/x/X.csproj" "/ws/y/Y.csproj" ["/ws/z/Z.csproj"] []);
    reflexivity.
Defined.

(** X7. As the code is written, a call of [getFunctionsProject] asks the
    file system at most two questions: nothing at all, or one glob, or one
    glob followed by one stat. *)
Theorem getFunctionsProject_asks_at_most_twice (h : Host) (file : Uri)
    (t : Trace) :
  exists evs,
    snd (getFunctionsProject h file t) = (t ++ evs)%list /\
    (evs = [] \/
     (exists pattern, evs = [EvGlob pattern]) \/
     (exists pattern path, evs = [EvGlob pattern; EvStat path])).
Proof.
  destruct (workspace_getWorkspaceFolder h file) as [folder |] eqn:Hfolder.
  - destruct (glob_run h (projFilter h folder)) as [found | e] eqn:Hglob.
    + rewrite (getFunctionsProject_after_glob h file folder found t Hfolder Hglob).
      destruct (map _ found) as [| c [| c' rest]]; cbv zeta; cbn [snd].
      * eexists. split; [reflexivity |]. right. left. eauto.
      * eexists. split; [reflexivity |]. right. right. eauto.
      * eexists. split; [reflexivity |]. right. right. eauto.
    + rewrite (getFunctionsProject_glob_failure h file folder e t Hfolder Hglob).
      cbn [snd]. eexists. split; [reflexivity |]. right. left. eauto.
  - rewrite (getFunctionsProject_deref_folder h file t Hfolder).
    cbn [snd]. exists []. rewrite app_nil_r. split; [reflexivity | now left].
Qed.

(** ** The separator rewrite *)

Lemma replace_backslash_g_id (s : string) :
  has_backslash s = false -> replace_backslash_g s = s.
Proof.
  induction s as [| c r IH]; cbn [has_backslash replace_backslash_g];
    [reflexivity |].
  intros H. apply orb_false_iff in H as [Hc Hr].
  rewrite Hc, (IH Hr). reflexivity.
Qed.

(** X9. A root without backslashes (every POSIX path the editor hands out
    for a folder whose names hold none) goes to [escapePath] unchanged. *)
Theorem replace_backslash_g_fixes_clean_paths (s : string) :
  has_backslash s = false -> replace_backslash_g s = s.
Proof.
  apply replace_backslash_g_id.
Qed.

Lemma replace_backslash_g_fixes_clean_paths_witness :
  replace_backslash_g "/home/dev/ws [1]" = "/home/dev/ws [1]".
Proof.
  apply (replace_backslash_g_fixes_clean_paths "/home/dev/ws [1]").
  reflexivity.
Defined.

(** X10. The rewrite leaves no backslash behind, keeps the length of the
    path, and doing it twice is doing it once. *)
Theorem replace_backslash_g_normal_form (s : string) :
  has_backslash (replace_backslash_g s) = false /\
  String.length (replace_backslash_g s) = String.length s /\
  replace_backslash_g (replace_backslash_g s) = replace_backslash_g s.
Proof.
  assert (Hclean : has_backslash (replace_backslash_g s) = false).
  { induction s as [| c r IH]; cbn [has_backslash replace_backslash_g];
      [reflexivity |].
    rewrite IH, orb_false_r.
    destruct (Ascii.eqb_spec c "\") as [-> | Hc]; [reflexivity |].
    now apply Ascii.eqb_neq. }
  split; [exact Hclean |]. split.
  - apply replace_backslash_g_length.
  - now apply replace_backslash_g_id.
Qed.

(** ** More on the listing *)

(** X11. When the language service answers the listing with its success
    flag up, [getAzureFunctions] is fulfilled with the names of the answer,
    in the answer's order, after one request that names the file by its
    [fsPath]. *)
Theorem getAzureFunctions_success (h : Host) (u : Uri) (t : Trace)
    (result : GetAzureFunctionsResult) :
  send_GetAzureFunctionsRequest h {| gaf_filePath := fsPath u |} = Normal result ->
  gaf_success result = true ->
  getAzureFunctions h (Some u) t =
  (Normal (Fulfilled (azureFunctions result)),
   (t ++ [EvGetAzureFunctions {| gaf_filePath := fsPath u |}])%list).
Proof.
  intros Hsend Hflag. rewrite getAzureFunctions_run, Hsend, Hflag. reflexivity.
Qed.

Lemma getAzureFunctions_success_witness :
  getAzureFunctions (host_of cancelled_binding) (Some (Uri_file "/ws/app/Run.cs")) [] =
  (Normal (Fulfilled ["Run"; "Stop"]),
   [EvGetAzureFunctions {| gaf_filePath := "/ws/app/Run.cs" |}]).
Proof.
  apply (getAzureFunctions_success (host_of cancelled_binding)
           (Uri_file "/ws/app/Run.cs") []
           {| gaf_success := true;
              gaf_errorMessage := "";
              azureFunctions := ["Run"; "Stop"] |});
    reflexivity.
Defined.

(** X12. When the request of the listing is itself rejected (the exchange
    gives no answer), [getAzureFunctions] is rejected with that error. *)
Theorem getAzureFunctions_transport_error (h : Host) (u : Uri) (t : Trace)
    (e : Exn) :
  send_GetAzureFunctionsRequest h {| gaf_filePath := fsPath u |} = Throw e ->
  getAzureFunctions h (Some u) t =
  (Normal (Rejected e),
   (t ++ [EvGetAzureFunctions {| gaf_filePath := fsPath u |}])%list).
Proof.
  intros Hsend. rewrite getAzureFunctions_run, Hsend. reflexivity.
Qed.

Lemma getAzureFunctions_transport_error_witness :
  getAzureFunctions (host_of locked_project) (Some (Uri_file "/ws/locked/Run.cs")) [] =
  (Normal (Rejected (HostFailure "not connected")),
   [EvGetAzureFunctions {| gaf_filePath := "/ws/locked/Run.cs" |}]).
Proof.
  apply (getAzureFunctions_transport_error (host_of locked_project)
           (Uri_file "/ws/locked/Run.cs") [] (HostFailure "not connected")).
  reflexivity.
Defined.

(** ** More on the insert flow *)

(** X13. Called without a file while no editor is active,
    [insertSqlInputBinding] is rejected by the property access on the
    missing editor, before anything is asked of anyone. *)
Theorem insertSqlInputBinding_without_editor (h : Host) (t : Trace) :
  window_activeTextEditor h = None ->
  insertSqlInputBinding h None t =
  (Normal (Rejected
             (TypeError
                "Cannot read properties of undefined (reading 'document')")),
   t).
Proof.
  intros Hed. unfold insertSqlInputBinding, async, bind.
  rewrite Hed. reflexivity.
Qed.

Lemma insertSqlInputBinding_without_editor_witness :
  insertSqlInputBinding (host_of unreadable_workspace) None [] =
  (Normal (Rejected
             (TypeError
                "Cannot read properties of undefined (reading 'document')")),
   []).
Proof.
  apply (insertSqlInputBinding_without_editor (host_of unreadable_workspace) []).
  reflexivity.
Defined.

(** X14. Called without a file while an editor is active,
    [insertSqlInputBinding] does exactly what it does when called with the
    URI of that editor's document. *)
Theorem insertSqlInputBinding_falls_back_to_editor (h : Host)
    (editor : TextEditor) (t : Trace) :
  window_activeTextEditor h = Some editor ->
  insertSqlInputBinding h None t =
  insertSqlInputBinding h (Some (document_uri (document editor))) t.
Proof.
  intros Hed. unfold insertSqlInputBinding, async.
  unfold bind at 1. unfold bind at 1. rewrite Hed.
  unfold bind at 3. reflexivity.
Qed.

Lemma insertSqlInputBinding_falls_back_to_editor_witness :
  insertSqlInputBinding (host_of two_projects) None [] =
  insertSqlInputBinding (host_of two_projects)
    (Some (Uri_file "/ws/b/Function1.cs")) [].
Proof.
  apply (insertSqlInputBinding_falls_back_to_editor (host_of two_projects)
           {| document := {| document_uri := Uri_file "/ws/b/Function1.cs" |} |}
           []).
  reflexivity.
Defined.

(** The body of [insertSqlInputBinding] by cases, for a file that is
    given. *)
Ltac insert_cases_for_file h :=
  unfold insertSqlInputBinding, async;
  unfold bind at 1; cbn [ret]; insert_body h.

(** X15. When the listing answers with no function at all, the flow shows
    the message 'No Azure functions in the current file' and is fulfilled:
    all that the user and the language service see of the run is the
    binding-type picker, the listing request and that message, in this
    order, so no function picker is shown and no insert request is
    sent. *)
Theorem insertSqlInputBinding_no_functions (h : Host) (u : Uri)
    (result : GetAzureFunctionsResult) :
  send_GetAzureFunctionsRequest h {| gaf_filePath := fsPath u |} = Normal result ->
  gaf_success result = true ->
  azureFunctions result = [] ->
  fst (insertSqlInputBinding h (Some u) []) = Normal (Fulfilled tt) /\
  flow_events (snd (insertSqlInputBinding h (Some u) [])) =
  [ EvShowQuickPick intputOutputItems bindingPickOptions;
    EvGetAzureFunctions {| gaf_filePath := fsPath u |};
    EvShowErrorMessage "No Azure functions in the current file" ].
Proof.
  intros Hsend Hflag Hnone.
  destruct (insertSqlInputBinding h (Some u) []) as [out t'] eqn:Hrun.
  cbn [fst snd]. revert out t' Hrun.
  insert_cases_for_file h; intros out t' Heq; injection Heq as <- <-.
  all: first [ split; reflexivity | exfalso; congruence ].
Qed.

Lemma insertSqlInputBinding_no_functions_witness :
  fst (insertSqlInputBinding (host_of empty_workspace)
         (Some (Uri_file "/ws/notes/Run.cs")) []) = Normal (Fulfilled tt) /\
  flow_events
    (snd (insertSqlInputBinding (host_of empty_workspace)
            (Some (Uri_file "/ws/notes/Run.cs")) [])) =
  [ EvShowQuickPick intputOutputItems bindingPickOptions;
    EvGetAzureFunctions {| gaf_filePath := "/ws/notes/Run.cs" |};
    EvShowErrorMessage "No Azure functions in the current file" ].
Proof.
  apply (insertSqlInputBinding_no_functions (host_of empty_workspace)
           (Uri_file "/ws/notes/Run.cs")
           {| gaf_success := true; gaf_errorMessage := ""; azureFunctions := [] |});
    reflexivity.
Defined.

(** X16. When the listing fails, by an answer with the success flag down
    or by a rejected request, the whole flow is rejected with the error of
    the listing; all that the user and the language service see of the run
    is the binding-type picker and the listing request, so the user is
    asked nothing more and no insert request is sent. *)
Theorem insertSqlInputBinding_stops_on_listing_failure (h : Host) (u : Uri)
    (e : Exn) :
  (send_GetAzureFunctionsRequest h {| gaf_filePath := fsPath u |} = Throw e \/
   exists result,
     send_GetAzureFunctionsRequest h {| gaf_filePath := fsPath u |} =
       Normal result /\
     gaf_success result = false /\
     e = Error (gaf_errorMessage result)) ->
  fst (insertSqlInputBinding h (Some u) []) = Normal (Rejected e) /\
  flow_events (snd (insertSqlInputBinding h (Some u) [])) =
  [ EvShowQuickPick intputOutputItems bindingPickOptions;
    EvGetAzureFunctions {| gaf_filePath := fsPath u |} ].
Proof.
  intros Hfail.
  destruct (insertSqlInputBinding h (Some u) []) as [out t'] eqn:Hrun.
  cbn [fst snd]. revert out t' Hrun.
  insert_cases_for_file h; intros out t' Heq; injection Heq as <- <-.
  all: destruct Hfail as [Hsend | (result & Hsend & Hflag & ->)].
  all: first [ split; [congruence | reflexivity] | exfalso; congruence ].
Qed.

Lemma insertSqlInputBinding_stops_on_listing_failure_witness :
  fst (insertSqlInputBinding (host_of failing_service)
         (Some (Uri_file "/ws/app/Run.cs")) []) =
    Normal (Rejected (Error "Could not parse file")) /\
  flow_events
    (snd (insertSqlInputBinding (host_of failing_service)
            (Some (Uri_file "/ws/app/Run.cs")) [])) =
  [ EvShowQuickPick intputOutputItems bindingPickOptions;
    EvGetAzureFunctions {| gaf_filePath := "/ws/app/Run.cs" |} ].
Proof.
  apply (insertSqlInputBinding_stops_on_listing_failure
           (host_of failing_service) (Uri_file "/ws/app/Run.cs")
           (Error "Could not parse file")).
  right.
  exists {| gaf_success := false;
            gaf_errorMessage := "Could not parse file";
            azureFunctions := [] |}.
  repeat split.
Defined.

(** X17. In one run of [insertSqlInputBinding] the language service gets
    at most one listing request and at most one insert request, the user
    sees at most one error message, and an insert request is never sent
    without a listing request. *)
Theorem insertSqlInputBinding_sends_at_most_once (h : Host)
    (file : option Uri) :
  count_events is_listing_event (snd (insertSqlInputBinding h file [])) <= 1 /\
  count_events is_insert_event (snd (insertSqlInputBinding h file [])) <= 1 /\
  count_events is_error_message (snd (insertSqlInputBinding h file [])) <= 1 /\
  count_events is_insert_event (snd (insertSqlInputBinding h file [])) <=
  count_events is_listing_event (snd (insertSqlInputBinding h file [])).
Proof.
  destruct (insertSqlInputBinding h file []) as [out t'] eqn:Hrun.
  cbn [snd]. revert out t' Hrun.
  insert_cases h file; intros out t' Heq; injection Heq as <- <-.
  all: cbn [is_listing_event is_insert_event is_error_message count_events
              filter length app].
  all: repeat split; lia.
Qed.

(** X18. When the insert request of a run is itself rejected (the exchange
    gives no answer), the run is rejected with that error; the request is
    the last thing the user and the language service see of the run, and
    no error message is shown. *)
Theorem insertSqlInputBinding_insert_transport_error (h : Host)
    (file : option Uri) (out : Completion (Promise unit)) (t' : Trace)
    (params : InsertSqlBindingParams) (e : Exn) :
  insertSqlInputBinding h file [] = (out, t') ->
  In (EvInsertSqlBinding params) t' ->
  send_InsertSqlBindingRequest h params = Throw e ->
  out = Normal (Rejected e) /\
  (exists before,
      flow_events t' = (before ++ [EvInsertSqlBinding params])%list) /\
  (forall message, ~ In (EvShowErrorMessage message) t').
Proof.
  revert out t'.
  insert_cases h file; intros out t' Heq Hin Hsend; injection Heq as <- <-.
  all: split_trace Hin; try contradiction; try discriminate;
    try not_fs_event.
  all: same_event Hin.
  all: try congruence.
  all: split; [congruence |].
  all: split; [flow_ends | absent_from_trace].
Qed.

Lemma insertSqlInputBinding_insert_transport_error_witness :
  fst (insertSqlInputBinding (host_of three_projects_locked)
         (Some (Uri_file "/ws/y/Run.cs")) []) =
    Normal (Rejected (HostFailure "connection closed")) /\
  (exists before,
      flow_events
        (snd (insertSqlInputBinding (host_of three_projects_locked)
                (Some (Uri_file "/ws/y/Run.cs")) [])) =
      (before ++
       [EvInsertSqlBinding
          {| filePath := "/ws/y/Run.cs";
             functionName := "Run";
             objectName := "[dbo].[Orders]";
             bindingType := input;
             connectionStringSetting := "SqlConnectionString" |}])%list) /\
  (forall message,
      ~ In (EvShowErrorMessage message)
          (snd (insertSqlInputBinding (host_of three_projects_locked)
                  (Some (Uri_file "/ws/y/Run.cs")) []))).
Proof.
  apply (insertSqlInputBinding_insert_transport_error
           (host_of three_projects_locked) (Some (Uri_file "/ws/y/Run.cs"))
           (fst (insertSqlInputBinding (host_of three_projects_locked)
                   (Some (Uri_file "/ws/y/Run.cs")) []))
           (snd (insertSqlInputBinding (host_of three_projects_locked)
                   (Some (Uri_file "/ws/y/Run.cs")) []))
           {| filePath := "/ws/y/Run.cs";
              functionName := "Run";
              objectName := "[dbo].[Orders]";
              bindingType := input;
              connectionStringSetting := "SqlConnectionString" |}
           (HostFailure "connection closed")).
  - reflexivity.
  - vm_compute. find_event.
  - reflexivity.
Defined.

(** X19. When the insert request of a run is answered with the success
    flag up, the run is fulfilled; the request is the last thing the user
    and the language service see of the run, and no error message is
    shown. *)
Theorem insertSqlInputBinding_insert_success (h : Host)
    (file : option Uri) (out : Completion (Promise unit)) (t' : Trace)
    (params : InsertSqlBindingParams) (result : ResultStatus) :
  insertSqlInputBinding h file [] = (out, t') ->
  In (EvInsertSqlBinding params) t' ->
  send_InsertSqlBindingRequest h params = Normal result ->
  success result = true ->
  out = Normal (Fulfilled tt) /\
  (exists before,
      flow_events t' = (before ++ [EvInsertSqlBinding params])%list) /\
  (forall message, ~ In (EvShowErrorMessage message) t').
Proof.
  revert out t'.
  insert_cases h file; intros out t' Heq Hin Hsend Hflag;
    injection Heq as <- <-.
  all: split_trace Hin; try contradiction; try discriminate;
    try not_fs_event.
  all: same_event Hin.
  all: try congruence.
  all: split; [reflexivity |].
  all: split; [flow_ends | absent_from_trace].
Qed.

Lemma insertSqlInputBinding_insert_success_witness :
  fst (insertSqlInputBinding (host_of (single_project true))
         (Some (Uri_file "/ws/app/Run.cs")) []) = Normal (Fulfilled tt) /\
  (exists before,
      flow_events
        (snd (insertSqlInputBinding (host_of (single_project true))
                (Some (Uri_file "/ws/app/Run.cs")) [])) =
      (before ++
       [EvInsertSqlBinding
          {| filePath := "/ws/app/Run.cs";
             functionName := "Run";
             objectName := "[dbo].[Orders]";
             bindingType := output;
             connectionStringSetting := "SqlConnectionString" |}])%list) /\
  (forall message,
      ~ In (EvShowErrorMessage message)
          (snd (insertSqlInputBinding (host_of (single_project true))
                  (Some (Uri_file "/ws/app/Run.cs")) []))).
Proof.
  apply (insertSqlInputBinding_insert_success
           (host_of (single_project true)) (Some (Uri_file "/ws/app/Run.cs"))
           (fst (insertSqlInputBinding (host_of (single_project true))
                   (Some (Uri_file "/ws/app/Run.cs")) []))
           (snd (insertSqlInputBinding (host_of (single_project true))
                   (Some (Uri_file "/ws/app/Run.cs")) []))
           {| filePath := "/ws/app/Run.cs";
              functionName := "Run";
              objectName := "[dbo].[Orders]";
              bindingType := output;
              connectionStringSetting := "SqlConnectionString" |}
           {| success := true; errorMessage := "" |}).
  - reflexivity.
  - vm_compute. find_event.
  - reflexivity.
  - reflexivity.
Defined.

(** X20. Every insert request of a run names the file the run works on
    (its argument, or else the document of the active editor), and the
    listing request of the same run named that same file. *)
Theorem insertSqlInputBinding_request_names_target (h : Host)
    (file : option Uri) (out : Completion (Promise unit)) (t' : Trace)
    (params : InsertSqlBindingParams) :
  insertSqlInputBinding h file [] = (out, t') ->
  In (EvInsertSqlBinding params) t' ->
  exists u,
    target_file h file = Some u /\
    filePath params = fsPath u /\
    In (EvGetAzureFunctions {| gaf_filePath := fsPath u |}) t'.
Proof.
  revert out t'.
  insert_cases h file; intros out t' Heq Hin; injection Heq as <- <-.
  all: split_trace Hin; try contradiction; try discriminate;
    try not_fs_event.
  all: same_event Hin; cbn [target_file filePath].
  all: try match goal with
           | Hed : window_activeTextEditor _ = Some _ |- _ => rewrite Hed
           end.
  all: cbn [option_map]; eexists; split; [reflexivity |];
    split; [reflexivity | in_trace].
Qed.

Lemma insertSqlInputBinding_request_names_target_witness :
  exists u,
    target_file (host_of two_projects) None = Some u /\
    "/ws/b/Function1.cs" = fsPath u /\
    In (EvGetAzureFunctions {| gaf_filePath := fsPath u |})
       (snd (insertSqlInputBinding (host_of two_projects) None [])).
Proof.
  apply (insertSqlInputBinding_request_names_target
           (host_of two_projects) None
           (fst (insertSqlInputBinding (host_of two_projects) None []))
           (snd (insertSqlInputBinding (host_of two_projects) None []))
           {| filePath := "/ws/b/Function1.cs";
              functionName := "Function1";
              objectName := "[dbo].[Orders]";
              bindingType := input;
              connectionStringSetting := "SqlConnectionString" |}).
  - reflexivity.
  - vm_compute. find_event.
Defined.

(** X21. Whenever a run shows the function picker, the listing of the
    run's file had answered with the success flag up and at least one
    name, and the picker offers exactly the names of that answer, each as
    a label, in the answer's order. *)
Theorem insertSqlInputBinding_picker_offers_listing (h : Host)
    (file : option Uri) (out : Completion (Promise unit)) (t' : Trace)
    (items : list QuickPickItem) :
  insertSqlInputBinding h file [] = (out, t') ->
  In (EvShowQuickPick items functionPickOptions) t' ->
  exists u result,
    target_file h file = Some u /\
    send_GetAzureFunctionsRequest h {| gaf_filePath := fsPath u |} =
      Normal result /\
    gaf_success result = true /\
    azureFunctions result <> [] /\
    items = map (fun aFName => {| label := aFName |}) (azureFunctions result).
Proof.
  revert out t'.
  insert_cases h file; intros out t' Heq Hin; injection Heq as <- <-.
  all: unfold functionPickOptions in Hin.
  all: split_trace Hin; try contradiction; try discriminate;
    try not_fs_event.
  all: same_event Hin; cbn [target_file].
  all: try match goal with
           | Hed : window_activeTextEditor _ = Some _ |- _ => rewrite Hed
           end.
  all: cbn [option_map]; eexists _, _; split; [reflexivity |];
    split; [eassumption |]; split; [assumption |].
  all: match goal with
       | Hf : azureFunctions _ = _ |- _ => rewrite Hf
       end.
  all: split; [discriminate | reflexivity].
Qed.

Lemma insertSqlInputBinding_picker_offers_listing_witness :
  exists u result,
    target_file (host_of cancelled_binding)
      (Some (Uri_file "/ws/app/Run.cs")) = Some u /\
    send_GetAzureFunctionsRequest (host_of cancelled_binding)
      {| gaf_filePath := fsPath u |} = Normal result /\
    gaf_success result = true /\
    azureFunctions result <> [] /\
    [ {| label := "Run" |}; {| label := "Stop" |} ] =
    map (fun aFName => {| label := aFName |}) (azureFunctions result).
Proof.
  apply (insertSqlInputBinding_picker_offers_listing
           (host_of cancelled_binding) (Some (Uri_file "/ws/app/Run.cs"))
           (fst (insertSqlInputBinding (host_of cancelled_binding)
                   (Some (Uri_file "/ws/app/Run.cs")) []))
           (snd (insertSqlInputBinding (host_of cancelled_binding)
                   (Some (Uri_file "/ws/app/Run.cs")) []))).
  - reflexivity.
  - vm_compute. find_event.
Defined.

(** X22. The prompts of a run form a chain: whenever the connection-string
    prompt was shown, the function picker had been shown and had come back
    with a non-empty label, and the object prompt had been shown and had
    come back with a non-empty text. *)
Theorem insertSqlInputBinding_prompts_in_chain (h : Host)
    (file : option Uri) (out : Completion (Promise unit)) (t' : Trace) :
  insertSqlInputBinding h file [] = (out, t') ->
  In (EvShowInputBox settingInputOptions) t' ->
  (exists items fn,
      In (EvShowQuickPick items functionPickOptions) t' /\
      option_map label (window_showQuickPick h items functionPickOptions) =
      Some fn /\
      fn <> "") /\
  (exists obj,
      In (EvShowInputBox (objectInputOptions h)) t' /\
      window_showInputBox h (objectInputOptions h) = Some obj /\
      obj <> "").
Proof.
  revert out t'.
  insert_cases h file; intros out t' Heq Hin; injection Heq as <- <-.
  all: unfold settingInputOptions in Hin.
  all: split_trace Hin; try contradiction; try discriminate;
    try not_fs_event.
  all: try (exfalso; injection Hin as Hprompt;
            destruct (strict_eq _ _); discriminate).
  all: clear Hin; split.
  all: try (eexists _, _; split; [in_trace |];
            split; [eassumption | auto using ToBoolean_string_true]).
  all: eexists; split; [in_trace |];
    split; [eassumption | auto using ToBoolean_string_true].
Qed.

Lemma insertSqlInputBinding_prompts_in_chain_witness :
  (exists items fn,
      In (EvShowQuickPick items functionPickOptions)
         (snd (insertSqlInputBinding (host_of cancelled_binding)
                 (Some (Uri_file "/ws/app/Run.cs")) [])) /\
      option_map label
        (window_showQuickPick (host_of cancelled_binding) items
           functionPickOptions) = Some fn /\
      fn <> "") /\
  (exists obj,
      In (EvShowInputBox (objectInputOptions (host_of cancelled_binding)))
         (snd (insertSqlInputBinding (host_of cancelled_binding)
                 (Some (Uri_file "/ws/app/Run.cs")) [])) /\
      window_showInputBox (host_of cancelled_binding)
        (objectInputOptions (host_of cancelled_binding)) = Some obj /\
      obj <> "").
Proof.
  apply (insertSqlInputBinding_prompts_in_chain
           (host_of cancelled_binding) (Some (Uri_file "/ws/app/Run.cs"))
           (fst (insertSqlInputBinding (host_of cancelled_binding)
                   (Some (Uri_file "/ws/app/Run.cs")) []))).
  - reflexivity.
  - vm_compute. find_event.
Defined.

(** X8. With a workspace folder and a glob that finds at most one project
    file, the lookup is fulfilled with [undefined] exactly when the glob
    found none: a single project file is answered, or the lookup is
    rejected, and it is never reported as absent. *)
Theorem getFunctionsProject_undefined_iff_nothing_found (h : Host)
    (file : Uri) (folder : WorkspaceFolder) (found : list string)
    (t : Trace) :
  workspace_getWorkspaceFolder h file = Some folder ->
  glob_run h (projFilter h folder) = Normal found ->
  length found <= 1 ->
  fst (getFunctionsProject h file t) = Normal (Fulfilled None) <-> found = [].
Proof.
  intros Hfolder Hglob Hsize.
  rewrite (getFunctionsProject_after_glob h file folder found t Hfolder Hglob).
  destruct found as [| c1 [| c2 rest]]; cbn [map fst]; cbv zeta; cbn [fst].
  - split; reflexivity.
  - split; [| discriminate].
    destruct (fs_stat h _) as [st | e]; [discriminate |].
    destruct (is_not_found e); discriminate.
  - cbn [length] in Hsize. lia.
Qed.

Lemma getFunctionsProject_undefined_iff_nothing_found_witness :
  (fst (getFunctionsProject (host_of empty_workspace)
          (Uri_file "/ws/notes/Run.cs") []) = Normal (Fulfilled None) <->
   @nil string = []) /\
  (fst (getFunctionsProject (host_of (single_project false))
          (Uri_file "/ws/app/Run.cs") []) = Normal (Fulfilled None) <->
   ["/ws/app/App.csproj"] = []) /\
  fst (getFunctionsProject (host_of (single_project false))
         (Uri_file "/ws/app/Run.cs") []) <> Normal (Fulfilled None).
Proof.
  assert (Hone :
            fst (getFunctionsProject (host_of (single_project false))
                   (Uri_file "/ws/app/Run.cs") []) = Normal (Fulfilled None) <->
            ["/ws/app/App.csproj"] = []).
  { apply (getFunctionsProject_undefined_iff_nothing_found
             (host_of (single_project false)) (Uri_file "/ws/app/Run.cs")
             {| uri := Uri_file "/ws" |} ["/ws/app/App.csproj"] []);
      [reflexivity | reflexivity | cbn [length]; lia]. }
  split; [| split].
  - apply (getFunctionsProject_undefined_iff_nothing_found
             (host_of empty_workspace) (Uri_file "/ws/notes/Run.cs")
             {| uri := Uri_file "/ws" |} [] []);
      [reflexivity | reflexivity | cbn [length]; lia].
  - exact Hone.
  - intros Hnone. apply Hone in Hnone. discriminate.
Defined.
